(** * user-validation-plugin: the verification lifecycle engine

    A shallow embedding of [src/utils.ts], [src/config.ts], [src/types.ts]
    and of the methods and the pre-save hook that [validationPlugin]
    (src/index.ts) installs on a schema, followed by the properties of the
    lifecycle that the specification states.

    Conventions of the embedding
    - a JavaScript [number] that the code uses as a counter, a length or a
      number of seconds is a [Z]; a [Date] is its [getTime()] value, a [Z]
      of milliseconds;
    - an optional field ([last_try?], [expire_at?], [options?.codeLength])
      is an [option];
    - a [ValidationType] is, at run time, a string: the union type of
      [types.ts] is erased by the compiler, so the methods receive whatever
      string the caller passes;
    - [new Date()] and [Math.random()] read the outside world; the world is
      threaded through the code by a state monad;
    - the [validations] array is mutated in place by the source; an update of
      the element found at index [i] is the list update [<[i:=v]>]. *)

From Stdlib Require Import ZArith QArith Qround Lia.
From stdpp Require Import base option list strings pretty.

Open Scope Z_scope.

(** ** The outside world: clock and random source *)

Record World := mkWorld {
  clock : nat -> Z;        (* the time that the k-th [new Date()] observes *)
  clock_reads : nat;       (* how many times the clock has been read *)
  entropy : nat -> Q;      (* the value of the k-th [Math.random()] *)
  entropy_draws : nat      (* how many values have been drawn *)
}.

(** [Math.random()] returns a number in the interval [0, 1). *)
Definition unit_interval (w : World) : Prop :=
  forall k, (0 <= entropy w k)%Q /\ (entropy w k < 1)%Q.

Definition M (A : Type) : Type := World -> A * World.

Definition ret {A} (a : A) : M A := fun w => (a, w).

Definition bind {A B} (m : M A) (f : A -> M B) : M B :=
  fun w => let (a, w') := m w in f a w'.

Notation "'let*' x ':=' m 'in' k" := (bind m (fun x => k))
  (at level 10, x name, m at level 100, k at level 200).

Definition new_Date : M Z :=
  fun w => (clock w (clock_reads w),
            mkWorld (clock w) (S (clock_reads w)) (entropy w) (entropy_draws w)).

Definition Math_random : M Q :=
  fun w => (entropy w (entropy_draws w),
            mkWorld (clock w) (clock_reads w) (entropy w) (S (entropy_draws w))).

(** [Math.floor(x)] *)
Definition Math_floor (x : Q) : Z := Qfloor x.

(** [n.toString()] of an integral number: its decimal numeral. *)
Definition toString (n : Z) : string := pretty n.

(** [x || d] on an optional number: [undefined] and [0] are falsy, every
    other integer is truthy. *)
Definition or_default (x : option Z) (d : Z) : Z :=
  match x with
  | Some v => if v =? 0 then d else v
  | None => d
  end.

(** ** src/types.ts *)

Inductive ValidationType := email | phone | identity | address.

(** The string that a [ValidationType] is at run time. *)
Definition type_name (k : ValidationType) : string :=
  match k with
  | email => "email"
  | phone => "phone"
  | identity => "identity"
  | address => "address"
  end.

Definition all_types : list ValidationType := [email; phone; identity; address].

Record Validation := mkValidation {
  type : string;
  validated : bool;
  code : string;
  resends : Z;
  created : Z;
  last_try : option Z;
  tries : Z;
  expire_at : option Z;
  metadata : option (list (string * string))
}.

Record ValidationOptions := mkOptions {
  expiresIn : option Z;
  codeLength : option Z;
  maxTries : option Z;
  maxResends : option Z
}.

Record ValidationConfig := mkConfig {
  ENABLED : bool;
  EMAIL_VALIDATION : bool;
  PHONE_VALIDATION : bool;
  IDENTITY_VALIDATION : bool;
  ADDRESS_VALIDATION : bool;
  DEFAULT_CODE_LENGTH : Z;
  DEFAULT_EXPIRY : Z;
  MAX_TRIES : Z;
  MAX_RESENDS : Z
}.

(** The part of [IValidatable] that the plugin reads and writes. *)
Record Doc := mkDoc {
  isNew : bool;
  validations : option (list Validation)
}.

(** Field assignments [v.f = x]. *)
Definition set_validated (b : bool) (v : Validation) : Validation :=
  mkValidation (type v) b (code v) (resends v) (created v) (last_try v)
               (tries v) (expire_at v) (metadata v).

Definition set_tries (n : Z) (v : Validation) : Validation :=
  mkValidation (type v) (validated v) (code v) (resends v) (created v)
               (last_try v) n (expire_at v) (metadata v).

Definition set_last_try (t : Z) (v : Validation) : Validation :=
  mkValidation (type v) (validated v) (code v) (resends v) (created v)
               (Some t) (tries v) (expire_at v) (metadata v).

Definition set_validations (l : list Validation) (d : Doc) : Doc :=
  mkDoc (isNew d) (Some l).

(** ** src/config.ts *)

Definition defaultConfig : ValidationConfig :=
  {| ENABLED := true;
     EMAIL_VALIDATION := true;
     PHONE_VALIDATION := true;
     IDENTITY_VALIDATION := true;
     ADDRESS_VALIDATION := true;
     DEFAULT_CODE_LENGTH := 6;
     DEFAULT_EXPIRY := 3600;
     MAX_TRIES := 5;
     MAX_RESENDS := 3 |}.

(** The per-kind switch of a configuration. *)
Definition validation_flag (cfg : ValidationConfig) (k : ValidationType) : bool :=
  match k with
  | email => EMAIL_VALIDATION cfg
  | phone => PHONE_VALIDATION cfg
  | identity => IDENTITY_VALIDATION cfg
  | address => ADDRESS_VALIDATION cfg
  end.

(** ** src/utils.ts *)

(** The body of the loop of [generateValidationCode], run [n] more times:
    [code += Math.floor(Math.random() * 10).toString()]. *)
Fixpoint generate_loop (n : nat) (acc : string) : M string :=
  match n with
  | O => ret acc
  | S n' =>
      let* r := Math_random in
      generate_loop n' (acc +:+ toString (Math_floor (r * 10)))
  end.

(** [length: number = defaultConfig.DEFAULT_CODE_LENGTH]: the default of a
    parameter stands in for an argument that is [undefined], and for no
    other.  [for (let i = 0; i < length; i++)] runs [length] times, and not
    at all when [length <= 0]. *)
Definition generateValidationCode (length : option Z) : M string :=
  let length := default (DEFAULT_CODE_LENGTH defaultConfig) length in
  generate_loop (Z.to_nat length) "".

(** [expiresIn: number = defaultConfig.DEFAULT_EXPIRY] *)
Definition calculateExpiry (expiresIn : option Z) : M Z :=
  let expiresIn := default (DEFAULT_EXPIRY defaultConfig) expiresIn in
  let* now := new_Date in
  ret (now + expiresIn * 1000).

(** The fields of the object literal are evaluated in the order in which
    they are written: [created] reads the clock before the code is drawn, and
    [calculateExpiry] reads it again afterwards. *)
Definition createValidation (ty : string) (options : option ValidationOptions)
    (is_validated : bool) : M Validation :=
  let codeLength := or_default (options ≫= codeLength) (DEFAULT_CODE_LENGTH defaultConfig) in
  let expiresIn := or_default (options ≫= expiresIn) (DEFAULT_EXPIRY defaultConfig) in
  let* created_at := new_Date in
  let* new_code := (if is_validated then ret ""
                    else generateValidationCode (Some codeLength)) in
  let* expiry := (if is_validated then ret None
                  else let* e := calculateExpiry (Some expiresIn) in ret (Some e)) in
  ret {| type := ty;
         validated := is_validated;
         created := created_at;
         code := new_code;
         resends := 0;
         tries := 0;
         expire_at := expiry;
         last_try := None;
         metadata := None |}.

(** ** src/index.ts: what [validationPlugin] installs *)

(** [currentValidations.find(v => v.type === type)], with the index of the
    element found. *)
Definition find_type (ty : string) (l : list Validation) : option (nat * Validation) :=
  list_find (fun v => type v = ty) l.

(** [this.validations || []] *)
Definition current (this : Doc) : list Validation :=
  default [] (validations this).

(** [schema.methods.isValidated] *)
Definition isValidated (this : Doc) (ty : string) : bool :=
  match validations this with
  | None => false
  | Some l =>
      match find_type ty l with
      | Some (_, v) => validated v
      | None => false
      end
  end.

(** [schema.methods.createValidationRequest] *)
Definition createValidationRequest (this : Doc) (ty : string)
    (options : option ValidationOptions) : M (Validation * Doc) :=
  let currentValidations := current this in
  let currentValidations :=
    match find_type ty currentValidations with
    | Some (existingIndex, _) => delete existingIndex currentValidations
    | None => currentValidations
    end in
  let* newValidation := createValidation ty options false in
  let currentValidations := currentValidations ++ [newValidation] in
  ret (newValidation, set_validations currentValidations this).

(** [schema.methods.validateCode].  The entry found is an element of
    [this.validations] (an absent array has no element), so what the source
    writes into it is written into the document. *)
Definition validateCode (pluginConfig : ValidationConfig) (this : Doc)
    (ty submitted : string) : M (bool * Doc) :=
  let currentValidations := current this in
  match find_type ty currentValidations with
  | None => ret (false, this)
  | Some (i, validation) =>
      if validated validation then ret (true, this)
      else
        let* expired := match expire_at validation with
                        | None => ret false
                        | Some e => let* now := new_Date in ret (e <? now)
                        end in
        if expired : bool then ret (false, this)
        else
          let validation := set_tries (tries validation + 1) validation in
          let* now := new_Date in
          let validation := set_last_try now validation in
          if MAX_TRIES pluginConfig <? tries validation then
            ret (false, set_validations (<[i:=validation]> currentValidations) this)
          else
            let isValid := String.eqb (code validation) submitted in
            let validation := if isValid then set_validated true validation else validation in
            ret (isValid, set_validations (<[i:=validation]> currentValidations) this)
  end.

(** One of the four blocks of the pre-save hook, [Auto-validate <kind> if
    configured], on the local variables [currentValidations] and
    [hasChanges].  The blocks of the source differ in the flag they read and
    in the kind only. *)
Definition autoValidate (cfg : ValidationConfig) (k : ValidationType)
    (st : list Validation * bool) : M (list Validation * bool) :=
  let '(currentValidations, hasChanges) := st in
  if negb (validation_flag cfg k) then
    match find_type (type_name k) currentValidations with
    | None =>
        let* v := createValidation (type_name k) None true in
        ret (currentValidations ++ [v], true)
    | Some (i, found) =>
        if negb (validated found) then
          ret (<[i:=set_validated true found]> currentValidations, true)
        else ret (currentValidations, hasChanges)
    end
  else ret (currentValidations, hasChanges).

(** The body of [if (this.isNew) { ... }] up to the final assignment: the
    four blocks in the order email, phone, identity, address.  It yields
    [currentValidations] and [hasChanges]. *)
Definition autoValidateAll (cfg : ValidationConfig) (currentValidations : list Validation)
    : M (list Validation * bool) :=
  let* st := autoValidate cfg email (currentValidations, false) in
  let* st := autoValidate cfg phone st in
  let* st := autoValidate cfg identity st in
  autoValidate cfg address st.

(** [schema.pre('save', ...)] *)
Definition pre_save (pluginConfig : ValidationConfig) (this : Doc) : M Doc :=
  if negb (ENABLED pluginConfig) then ret this
  else if isNew this then
    let* st := autoValidateAll pluginConfig (current this) in
    let '(currentValidations, hasChanges) := st in
    if hasChanges : bool then ret (set_validations currentValidations this)
    else ret this
  else ret this.

(** ** How a call completes *)

(** A JavaScript call returns a value or throws. *)
Inductive Completion (A : Type) :=
  | Returns (a : A)
  | Throws (error : string).
Arguments Returns {A} a.
Arguments Throws {A} error.

(** The two methods hold no [throw] statement and call nothing that throws
    on the values of the model: the calls always complete by returning. *)
Definition call_validateCode (pluginConfig : ValidationConfig) (this : Doc)
    (ty submitted : string) (w : World) : Completion (bool * Doc * World) :=
  Returns (validateCode pluginConfig this ty submitted w).

Definition call_createValidationRequest (this : Doc) (ty : string)
    (options : option ValidationOptions) (w : World)
    : Completion (Validation * Doc * World) :=
  Returns (createValidationRequest this ty options w).

Definition signals_invalid_argument {A} (c : Completion A) : Prop :=
  exists error, c = Throws error.

(** ** Sequences of operations *)

Inductive Operation :=
  | SubmitCode (ty submitted : string)
  | ApplyCreationPolicy.

Definition perform (cfg : ValidationConfig) (o : Operation) (this : Doc) : M Doc :=
  match o with
  | SubmitCode ty submitted =>
      let* r := validateCode cfg this ty submitted in ret (snd r)
  | ApplyCreationPolicy => pre_save cfg this
  end.

Fixpoint perform_all (cfg : ValidationConfig) (ops : list Operation) (this : Doc) : M Doc :=
  match ops with
  | [] => ret this
  | o :: ops' => let* this' := perform cfg o this in perform_all cfg ops' this'
  end.

(** The number of entries of a kind in a collection. *)
Definition count_type (ty : string) (l : list Validation) : nat :=
  length (filter (fun v => type v = ty) l).

(** ** Vocabulary of the properties *)

(** The time at which a submission against the entry [v] is recorded: the
    expiry check reads the clock first when the entry has an expiry. *)
Definition attempt_time (v : Validation) (w : World) : Z :=
  match expire_at v with
  | Some _ => clock w (S (clock_reads w))
  | None => clock w (clock_reads w)
  end.

(** The entry after the attempt accounting of [validateCode]. *)
Definition attempted (v : Validation) (w : World) : Validation :=
  set_last_try (attempt_time v w) (set_tries (tries v + 1) v).

(** An unconfirmed entry is live in the world [w] when the clock, read now,
    is not past its expiry. *)
Definition live (v : Validation) (w : World) : Prop :=
  validated v = false /\
  forall e, expire_at v = Some e -> ~ e < clock w (clock_reads w).

(** [currentValidations] after the [splice] of [createValidationRequest]. *)
Definition without_first (ty : string) (l : list Validation) : list Validation :=
  match find_type ty l with
  | Some (existingIndex, _) => delete existingIndex l
  | None => l
  end.

(** The entry that a block appends: [createValidation(kind, undefined, true)]
    at clock time [t]. *)
Definition pre_validated (ty : string) (t : Z) : Validation :=
  {| type := ty; validated := true; code := ""; resends := 0; created := t;
     last_try := None; tries := 0; expire_at := None; metadata := None |}.

(** The blocks of the kinds [ks], one after the other. *)
Fixpoint autoValidateEach (cfg : ValidationConfig) (ks : list ValidationType)
    (st : list Validation * bool) : M (list Validation * bool) :=
  match ks with
  | [] => ret st
  | k :: ks' => let* st' := autoValidate cfg k st in autoValidateEach cfg ks' st'
  end.

(** What one block does to [currentValidations] and [hasChanges]. *)
Inductive block_effect (cfg : ValidationConfig) (k : ValidationType)
    (l : list Validation) (b : bool) : list Validation -> bool -> Prop :=
  | block_required :
      validation_flag cfg k = true -> block_effect cfg k l b l b
  | block_push t :
      validation_flag cfg k = false ->
      find_type (type_name k) l = None ->
      block_effect cfg k l b (l ++ [pre_validated (type_name k) t]) true
  | block_flip i found :
      validation_flag cfg k = false ->
      find_type (type_name k) l = Some (i, found) ->
      validated found = false ->
      block_effect cfg k l b (<[i:=set_validated true found]> l) true
  | block_done i found :
      validation_flag cfg k = false ->
      find_type (type_name k) l = Some (i, found) ->
      validated found = true ->
      block_effect cfg k l b l b.

(** Every entry of [l] is still at its index in [l'], of the same kind and
    with at least as many tries. *)
Definition keeps_tries (l l' : list Validation) : Prop :=
  forall i v, l !! i = Some v ->
    exists v', l' !! i = Some v' /\ type v' = type v /\ tries v <= tries v'.

(** A decimal digit, [0] to [9]. *)
Definition is_digit (c : Ascii.ascii) : bool :=
  ((48 <=? Ascii.nat_of_ascii c) && (Ascii.nat_of_ascii c <=? 57))%nat.

Fixpoint all_digits (s : string) : bool :=
  match s with
  | EmptyString => true
  | String c s' => is_digit c && all_digits s'
  end.

(** [validateCode] called once for each of the submitted strings, in
    order, on the document that the call before it left. *)
Fixpoint submit_each (cfg : ValidationConfig) (this : Doc) (ty : string)
    (codes : list string) : M (list bool * Doc) :=
  match codes with
  | [] => ret ([], this)
  | submitted :: codes' =>
      let* r := validateCode cfg this ty submitted in
      let* rs := submit_each cfg r.2 ty codes' in
      ret (r.1 :: rs.1, rs.2)
  end.

(** A call of one of the three things that write the collection. *)
Inductive Call :=
  | CallCreateValidationRequest (ty : string) (options : option ValidationOptions)
  | CallValidateCode (ty submitted : string)
  | CallSave.

Definition run_call (cfg : ValidationConfig) (c : Call) (this : Doc) : M Doc :=
  match c with
  | CallCreateValidationRequest ty options =>
      let* r := createValidationRequest this ty options in ret r.2
  | CallValidateCode ty submitted =>
      let* r := validateCode cfg this ty submitted in ret r.2
  | CallSave => pre_save cfg this
  end.

Fixpoint run_calls (cfg : ValidationConfig) (cs : list Call) (this : Doc) : M Doc :=
  match cs with
  | [] => ret this
  | c :: cs' => let* this' := run_call cfg c this in run_calls cfg cs' this'
  end.

(** The collection holds every kind at most once. *)
Definition unique_kinds (l : list Validation) : Prop :=
  forall ty, (count_type ty l <= 1)%nat.

(** The entry that [find] returns for a kind. *)
Definition first_of (ty : string) (l : list Validation) : option Validation :=
  snd <$> find_type ty l.

(** The clock of the world never runs backwards. *)
Definition clock_never_back (w : World) : Prop :=
  forall k, clock w k <= clock w (S k).

(** ** A concrete world and concrete documents, for examples *)

Definition noon : World :=
  mkWorld (fun k => 1000000 + Z.of_nat k) 0 (fun k => (Z.of_nat (k mod 10) # 10)) 0.

Definition alice : Validation :=
  {| type := "email"; validated := false; code := "123456"; resends := 0;
     created := 900000; last_try := None; tries := 0;
     expire_at := Some 4500000; metadata := None |}.

(** [alice] after four wrong submissions, and after five. *)
Definition fifth_try : Validation := set_last_try 950000 (set_tries 4 alice).
Definition locked_out : Validation := set_last_try 960000 (set_tries 5 alice).

(** An entry that expired one second before [noon]. *)
Definition expired_entry : Validation :=
  {| type := "email"; validated := false; code := "123456"; resends := 0;
     created := 900000; last_try := None; tries := 2;
     expire_at := Some 999000; metadata := None |}.

Definition confirmed_email : Validation := set_validated true alice.

Definition pending_phone : Validation :=
  {| type := "phone"; validated := false; code := "4321"; resends := 0;
     created := 900000; last_try := None; tries := 1;
     expire_at := Some 2700000; metadata := None |}.

(** [{ EMAIL_VALIDATION: false }] and two more configurations, merged with
    the defaults. *)
Definition auto_email : ValidationConfig :=
  mkConfig true false true true true 6 3600 5 3.
Definition auto_email_phone : ValidationConfig :=
  mkConfig true false false true true 6 3600 5 3.
Definition switched_off : ValidationConfig :=
  mkConfig false false true true true 6 3600 5 3.

Definition doc_of (l : list Validation) : Doc := mkDoc true (Some l).

(** ** Elementary facts about the embedding *)

Ltac run_monad := unfold bind, ret, new_Date, Math_random; simpl.

Lemma find_type_Some ty l i v :
  find_type ty l = Some (i, v) ->
  l !! i = Some v /\ type v = ty /\ forall j y, l !! j = Some y -> (j < i)%nat -> type y <> ty.
Proof. unfold find_type. intros H. by apply list_find_Some in H. Qed.

Lemma find_type_None ty l :
  find_type ty l = None <-> count_type ty l = 0%nat.
Proof.
  unfold find_type, count_type. rewrite list_find_None.
  rewrite length_zero_iff_nil. split.
  - intros H. induction H as [|x l Hx _ IH]; [done|].
    rewrite filter_cons_False; done.
  - induction l as [|x l IH]; [constructor|].
    destruct (decide (type x = ty)) as [Hx|Hx].
    + rewrite filter_cons_True; done.
    + rewrite filter_cons_False by done. intros H. constructor; auto.
Qed.

Lemma validateCode_no_entry cfg this ty submitted w :
  find_type ty (current this) = None ->
  validateCode cfg this ty submitted w = (false, this, w).
Proof. intros H. unfold validateCode. by rewrite H. Qed.

Lemma validateCode_confirmed cfg this ty submitted w :
  isValidated this ty = true ->
  validateCode cfg this ty submitted w = (true, this, w).
Proof.
  unfold isValidated, validateCode, current.
  destruct (validations this) as [l|]; simpl; [|done].
  destruct (find_type ty l) as [[i v]|]; [|done].
  by intros ->.
Qed.

Lemma validateCode_expired_entry cfg this ty i v e submitted w :
  find_type ty (current this) = Some (i, v) ->
  validated v = false ->
  expire_at v = Some e ->
  e < clock w (clock_reads w) ->
  (validateCode cfg this ty submitted w).1 = (false, this).
Proof.
  intros Hf Hv He Hlt. unfold validateCode. rewrite Hf, Hv, He. run_monad.
  apply Z.ltb_lt in Hlt. by rewrite Hlt.
Qed.

(** What a submission against a live entry does, in full. *)
Lemma validateCode_live cfg this ty i v submitted w :
  find_type ty (current this) = Some (i, v) ->
  live v w ->
  (validateCode cfg this ty submitted w).1 =
    if MAX_TRIES cfg <? tries v + 1 then
      (false, set_validations (<[i:=attempted v w]> (current this)) this)
    else if String.eqb (code v) submitted then
      (true, set_validations (<[i:=set_validated true (attempted v w)]> (current this)) this)
    else
      (false, set_validations (<[i:=attempted v w]> (current this)) this).
Proof.
  intros Hf [Hv Hlive]. unfold validateCode. rewrite Hf, Hv.
  unfold attempted, attempt_time.
  destruct (expire_at v) as [e|] eqn:He; run_monad.
  - specialize (Hlive e eq_refl). apply Z.ltb_nlt in Hlive. rewrite Hlive. simpl.
    destruct (MAX_TRIES cfg <? tries v + 1); [done|].
    by destruct (String.eqb (code v) submitted).
  - destruct (MAX_TRIES cfg <? tries v + 1); [done|].
    by destruct (String.eqb (code v) submitted).
Qed.

(** Writing into the entry found does not change which entry is found, as
    long as its kind is kept. *)
Lemma find_type_insert ty l i v v' :
  find_type ty l = Some (i, v) ->
  type v' = type v ->
  find_type ty (<[i:=v']> l) = Some (i, v').
Proof.
  intros Hf Hty. apply find_type_Some in Hf as (Hi & Hv & Hleast).
  unfold find_type. apply list_find_Some. split_and!.
  - apply list_lookup_insert_eq. by eapply lookup_lt_Some.
  - congruence.
  - intros j y Hj Hlt. rewrite list_lookup_insert_ne in Hj by lia. eauto.
Qed.

Lemma isValidated_doc_of_find this ty i v :
  find_type ty (current this) = Some (i, v) ->
  isValidated this ty = validated v.
Proof.
  unfold isValidated, current. destruct (validations this) as [l|]; simpl.
  - by intros ->.
  - unfold find_type. simpl. discriminate.
Qed.

Lemma current_set_validations l this : current (set_validations l this) = l.
Proof. reflexivity. Qed.

(** ** C1: the attempt ceiling *)

(** C1. A submission against a live entry always adds one to [tries] and
    records [last_try], before [MAX_TRIES] is looked at.  When the counter
    after the increment is at most [MAX_TRIES] (so also when it reaches it
    exactly) the code is compared, and the correct code confirms the entry;
    when the counter after the increment is above [MAX_TRIES] (so also at
    [MAX_TRIES + 1]) the call returns false whatever the submitted code is,
    and the entry keeps the increment and the new [last_try], unconfirmed. *)
Theorem validateCode_attempt_ceiling cfg this ty i v submitted w :
  find_type ty (current this) = Some (i, v) ->
  live v w ->
  let n := MAX_TRIES cfg in
  let result := (validateCode cfg this ty submitted w).1 in
  (exists v', find_type ty (current result.2) = Some (i, v') /\
              tries v' = tries v + 1 /\
              last_try v' = Some (attempt_time v w)) /\
  (tries v + 1 <= n -> result.1 = String.eqb (code v) submitted) /\
  (tries v + 1 <= n -> submitted = code v ->
     result = (true, set_validations
                       (<[i:=set_validated true (attempted v w)]> (current this)) this)) /\
  (n < tries v + 1 ->
     result = (false, set_validations (<[i:=attempted v w]> (current this)) this) /\
     validated (attempted v w) = false).
Proof.
  intros Hf Hlive n result. subst n result.
  rewrite (validateCode_live _ _ _ _ _ _ _ Hf Hlive).
  destruct Hlive as [Hv _].
  destruct (Z.ltb_spec (MAX_TRIES cfg) (tries v + 1)) as [Hgt|Hle].
  - split_and!; try lia.
    + exists (attempted v w). simpl. split_and!; [|done..].
      by apply (find_type_insert _ _ _ v).
    + done.
  - split_and!; try lia.
    + destruct (String.eqb (code v) submitted); simpl.
      * exists (set_validated true (attempted v w)). split_and!; [|done..].
        by apply (find_type_insert _ _ _ v).
      * exists (attempted v w). split_and!; [|done..].
        by apply (find_type_insert _ _ _ v).
    + intros _. by destruct (String.eqb (code v) submitted).
    + intros _ ->. by rewrite String.eqb_refl.
Qed.

(** ** C2: a confirmed entry short-circuits *)

Lemma validateCode_success_confirms cfg this ty submitted w :
  (validateCode cfg this ty submitted w).1.1 = true ->
  isValidated (validateCode cfg this ty submitted w).1.2 ty = true.
Proof.
  unfold validateCode.
  destruct (find_type ty (current this)) as [[i v]|] eqn:Hf; [|done].
  destruct (validated v) eqn:Hv.
  { intros _. simpl. by rewrite (isValidated_doc_of_find _ _ _ _ Hf). }
  assert (Hins : forall v', type v' = type v -> validated v' = true ->
            isValidated (set_validations (<[i:=v']> (current this)) this) ty = true).
  { intros v' Hty Hv'. erewrite isValidated_doc_of_find; [exact Hv'|].
    rewrite current_set_validations. by apply (find_type_insert _ _ _ v). }
  destruct (expire_at v) as [e|]; run_monad.
  - destruct (e <? _); simpl; [done|].
    destruct (_ <? _); simpl; [done|].
    destruct (String.eqb _ _); simpl; [|done]. intros _. by apply Hins.
  - destruct (_ <? _); simpl; [done|].
    destruct (String.eqb _ _); simpl; [|done]. intros _. by apply Hins.
Qed.

(** C2. When the entry of the kind is confirmed, [validateCode] returns
    true and changes neither the document nor the world, whatever the
    submitted string, the clock, the expiry or the number of tries; so after
    one successful call every later call, with any string, returns true and
    leaves the document (and with it [tries]) as it is. *)
Theorem validateCode_confirmed_idempotent cfg this ty :
  (isValidated this ty = true ->
   forall submitted w, validateCode cfg this ty submitted w = (true, this, w)) /\
  (forall first w0,
     (validateCode cfg this ty first w0).1.1 = true ->
     let this' := (validateCode cfg this ty first w0).1.2 in
     forall submitted w, validateCode cfg this' ty submitted w = (true, this', w)).
Proof.
  split.
  - intros H submitted w. by apply validateCode_confirmed.
  - intros first w0 Hok this' submitted w. subst this'.
    by apply validateCode_confirmed, validateCode_success_confirms.
Qed.

(** ** C3: an expired entry is left alone *)

(** C3. When the entry of the kind is unconfirmed and its [expire_at] is
    strictly before the time the clock shows, [validateCode] returns false
    and the document is what it was: [tries], [validated] and [last_try] of
    the entry, and everything else, are unchanged. *)
Theorem validateCode_expired_unchanged cfg this ty i v e submitted w :
  find_type ty (current this) = Some (i, v) ->
  validated v = false ->
  expire_at v = Some e ->
  e < clock w (clock_reads w) ->
  (validateCode cfg this ty submitted w).1 = (false, this) /\
  find_type ty (current (validateCode cfg this ty submitted w).1.2) = Some (i, v).
Proof.
  intros Hf Hv He Hlt.
  rewrite (validateCode_expired_entry _ _ _ _ _ _ _ _ Hf Hv He Hlt). by split.
Qed.

(** ** C4: a new request replaces the entry of its kind *)

Lemma generate_loop_world n acc w :
  (generate_loop n acc w).2 =
    mkWorld (clock w) (clock_reads w) (entropy w) (n + entropy_draws w).
Proof.
  revert acc w. induction n as [|n IH]; intros acc w.
  - by destruct w.
  - simpl. run_monad. rewrite IH. simpl. f_equal. lia.
Qed.

(** The entry that [createValidation] builds for a request. *)
Lemma createValidation_request ty options w :
  let v := (createValidation ty options false w).1 in
  type v = ty /\ validated v = false /\ tries v = 0 /\ resends v = 0 /\
  last_try v = None /\ metadata v = None /\
  created v = clock w (clock_reads w) /\
  expire_at v = Some (clock w (S (clock_reads w))
                      + or_default (options ≫= expiresIn) 3600 * 1000) /\
  code v = (generateValidationCode (Some (or_default (options ≫= codeLength) 6))
              (new_Date w).2).1.
Proof.
  unfold createValidation, calculateExpiry, generateValidationCode. run_monad.
  pose proof (generate_loop_world
    (Z.to_nat (or_default (options ≫= codeLength) 6)) ""
    (mkWorld (clock w) (S (clock_reads w)) (entropy w) (entropy_draws w))) as Hw.
  destruct (generate_loop _ _ _) as [c w1]. simpl in *. subst w1. simpl.
  by split_and!.
Qed.

(** The entry that [createValidation] builds already confirmed. *)
Lemma createValidation_validated ty options w :
  createValidation ty options true w =
    ({| type := ty; validated := true; code := ""; resends := 0;
        created := clock w (clock_reads w); last_try := None; tries := 0;
        expire_at := None; metadata := None |},
     mkWorld (clock w) (S (clock_reads w)) (entropy w) (entropy_draws w)).
Proof. reflexivity. Qed.

Lemma createValidationRequest_unfold this ty options w :
  createValidationRequest this ty options w =
    let nv := createValidation ty options false w in
    (nv.1, set_validations (without_first ty (current this) ++ [nv.1]) this, nv.2).
Proof.
  unfold createValidationRequest, without_first. run_monad.
  by destruct (createValidation ty options false w).
Qed.

Lemma count_type_app ty l1 l2 :
  count_type ty (l1 ++ l2) = (count_type ty l1 + count_type ty l2)%nat.
Proof. unfold count_type. by rewrite filter_app, length_app. Qed.

Lemma count_type_cons ty v l :
  count_type ty (v :: l) =
    ((if decide (type v = ty) then 1 else 0) + count_type ty l)%nat.
Proof.
  unfold count_type. destruct (decide (type v = ty)).
  - by rewrite filter_cons_True.
  - by rewrite filter_cons_False.
Qed.

Lemma filter_others_none ty l :
  count_type ty l = 0%nat -> filter (fun v => type v <> ty) l = l.
Proof.
  induction l as [|x l IH]; [done|].
  rewrite count_type_cons. destruct (decide (type x = ty)); [done|].
  intros H. rewrite filter_cons_True by done. f_equal. by apply IH.
Qed.

(** The [splice] takes the first entry of the kind out, and nothing else. *)
Lemma without_first_spec ty l :
  count_type ty (without_first ty l) = pred (count_type ty l) /\
  filter (fun v => type v <> ty) (without_first ty l)
    = filter (fun v => type v <> ty) l.
Proof.
  unfold without_first. destruct (find_type ty l) as [[i v]|] eqn:Hf.
  - apply find_type_Some in Hf as (Hi & Hv & _).
    pose proof (take_drop_middle l i v Hi) as Hl. rewrite delete_take_drop.
    set (before := take i l) in *. set (after := drop (S i) l) in *.
    clearbody before after. subst l.
    rewrite !count_type_app, !filter_app, count_type_cons.
    rewrite decide_True by done.
    rewrite filter_cons_False by (intros H; by apply H).
    split; [lia|done].
  - apply find_type_None in Hf. by rewrite Hf.
Qed.

Lemma find_type_app_new ty l v :
  count_type ty l = 0%nat -> type v = ty ->
  find_type ty (l ++ [v]) = Some (length l, v).
Proof.
  intros Hl Hv. apply find_type_None in Hl. unfold find_type in *.
  rewrite list_find_app_r by done. simpl.
  rewrite decide_True by done. simpl. done.
Qed.

Lemma count_type_filter_others ty l :
  count_type ty (filter (fun v => type v <> ty) l) = 0%nat.
Proof.
  induction l as [|x l IH]; [done|].
  destruct (decide (type x = ty)) as [Hx|Hx].
  - rewrite filter_cons_False; [done|]. intros H. by apply H.
  - rewrite filter_cons_True by done. rewrite count_type_cons.
    by rewrite decide_False.
Qed.

(** One request on a collection that holds the kind at most once. *)
Lemma createValidationRequest_once this ty options w :
  (count_type ty (current this) <= 1)%nat ->
  let r := (createValidationRequest this ty options w).1 in
  current r.2 = filter (fun v => type v <> ty) (current this) ++ [r.1] /\
  type r.1 = ty /\ validated r.1 = false /\ tries r.1 = 0 /\ resends r.1 = 0 /\
  count_type ty (current r.2) = 1%nat /\ isValidated r.2 ty = false.
Proof.
  intros Hcount. rewrite createValidationRequest_unfold. simpl.
  destruct (createValidation_request ty options w)
    as (Hty & Hval & Htries & Hres & _).
  set (nv := (createValidation ty options false w).1) in *.
  destruct (without_first_spec ty (current this)) as [Hc Hf].
  assert (Hzero : count_type ty (without_first ty (current this)) = 0%nat) by lia.
  assert (Hrest : without_first ty (current this)
                  = filter (fun v => type v <> ty) (current this)).
  { rewrite <- Hf. symmetry. by apply filter_others_none. }
  split_and!; try done.
  - by rewrite current_set_validations, Hrest.
  - rewrite current_set_validations, count_type_app, Hzero, count_type_cons.
    by rewrite decide_True.
  - erewrite isValidated_doc_of_find; [exact Hval|].
    rewrite current_set_validations. by apply find_type_app_new.
Qed.

(** C4, as amended.  On a collection that holds at most one entry of the
    kind, [createValidationRequest] takes that entry out (its tries and
    resends go with it), keeps the entries of the other kinds in their order,
    appends a fresh unconfirmed entry with [tries = 0] and [resends = 0] and
    returns it; the collection then holds exactly one entry of the kind and
    [isValidated] is false for it, and the same is true after a second
    request for the kind. *)
Theorem createValidationRequest_replaces this ty options w :
  (count_type ty (current this) <= 1)%nat ->
  let r := (createValidationRequest this ty options w).1 in
  (current r.2 = filter (fun v => type v <> ty) (current this) ++ [r.1] /\
   type r.1 = ty /\ validated r.1 = false /\ tries r.1 = 0 /\ resends r.1 = 0 /\
   count_type ty (current r.2) = 1%nat /\ isValidated r.2 ty = false) /\
  forall options' w',
    let r' := (createValidationRequest r.2 ty options' w').1 in
    current r'.2 = filter (fun v => type v <> ty) (current this) ++ [r'.1] /\
    type r'.1 = ty /\ validated r'.1 = false /\ tries r'.1 = 0 /\ resends r'.1 = 0 /\
    count_type ty (current r'.2) = 1%nat /\ isValidated r'.2 ty = false.
Proof.
  intros Hcount r.
  pose proof (createValidationRequest_once this ty options w Hcount) as H1.
  fold r in H1. split; [exact H1|].
  intros options' w' r'.
  destruct H1 as (Hcur & Hty & _ & _ & _ & Hone & _).
  assert (Hle : (count_type ty (current r.2) <= 1)%nat) by lia.
  pose proof (createValidationRequest_once r.2 ty options' w' Hle) as H2.
  fold r' in H2. destruct H2 as (Hcur' & H2).
  split; [|exact H2].
  rewrite Hcur', Hcur, filter_app.
  rewrite (filter_others_none ty (filter _ (current this)))
    by apply count_type_filter_others.
  rewrite filter_cons_False by (intros H; by apply H).
  by rewrite app_nil_r.
Qed.

(** ** The pre-save hook, block by block *)

Lemma autoValidateAll_each cfg l w :
  autoValidateAll cfg l w = autoValidateEach cfg all_types (l, false) w.
Proof.
  unfold autoValidateAll, all_types. cbn [autoValidateEach]. unfold bind.
  destruct (autoValidate cfg email (l, false) w) as [st1 w1].
  destruct (autoValidate cfg phone st1 w1) as [st2 w2].
  destruct (autoValidate cfg identity st2 w2) as [st3 w3].
  destruct (autoValidate cfg address st3 w3). reflexivity.
Qed.

Lemma autoValidateEach_app cfg ks1 ks2 st w :
  autoValidateEach cfg (ks1 ++ ks2) st w =
    autoValidateEach cfg ks2 (autoValidateEach cfg ks1 st w).1
                             (autoValidateEach cfg ks1 st w).2.
Proof.
  revert st w. induction ks1 as [|k ks1 IH]; intros st w; [done|].
  cbn [app autoValidateEach]. unfold bind.
  destruct (autoValidate cfg k st w) as [st' w']. apply IH.
Qed.

Lemma autoValidate_effect cfg k l b w :
  block_effect cfg k l b (autoValidate cfg k (l, b) w).1.1
                         (autoValidate cfg k (l, b) w).1.2.
Proof.
  unfold autoValidate.
  destruct (validation_flag cfg k) eqn:Hflag; simpl.
  { by apply block_required. }
  destruct (find_type (type_name k) l) as [[i found]|] eqn:Hf.
  - destruct (validated found) eqn:Hv; simpl.
    + by eapply block_done.
    + by eapply block_flip.
  - unfold bind. rewrite createValidation_validated. simpl.
    by apply (block_push cfg k l b (clock w (clock_reads w))).
Qed.

Lemma type_name_inj k1 k2 : type_name k1 = type_name k2 -> k1 = k2.
Proof. by destruct k1, k2. Qed.

Lemma find_type_app_other ty l v :
  type v <> ty -> find_type ty (l ++ [v]) = find_type ty l.
Proof.
  intros Hv. unfold find_type.
  destruct (list_find (fun v => type v = ty) l) as [[i u]|] eqn:Hf.
  - by apply list_find_app_l.
  - rewrite list_find_app_r by done. simpl. by rewrite decide_False.
Qed.

Lemma find_type_insert_other ty l i u u' :
  l !! i = Some u -> type u <> ty -> type u' <> ty ->
  find_type ty (<[i:=u']> l) = find_type ty l.
Proof.
  unfold find_type. revert i. induction l as [|x l IH]; intros i Hi Hu Hu'; [done|].
  destruct i as [|i]; simpl in *.
  - injection Hi as ->. by rewrite !decide_False.
  - destruct (decide (type x = ty)); [done|]. by rewrite (IH i).
Qed.

(** A block for another kind does not move or touch the entry found for
    the kind [ty]. *)
Lemma block_effect_find_other cfg k l b l' b' ty :
  block_effect cfg k l b l' b' -> type_name k <> ty ->
  find_type ty l' = find_type ty l.
Proof.
  intros H Hne. destruct H as [?|t ? ?|i found ? Hf ?|i found ? ? ?]; try done.
  - by apply find_type_app_other.
  - apply find_type_Some in Hf as (Hi & Hty & _).
    apply (find_type_insert_other ty l i found); [done|congruence|simpl; congruence].
Qed.

Lemma block_effect_changed cfg k l b l' b' :
  block_effect cfg k l b l' b' -> b = true -> b' = true.
Proof. by destruct 1. Qed.

Lemma block_effect_length cfg k l b l' b' :
  block_effect cfg k l b l' b' -> (length l <= length l')%nat.
Proof.
  destruct 1; try done.
  - rewrite length_app. simpl. lia.
  - by rewrite length_insert.
Qed.

(** A block keeps every entry at its index; it changes an entry at most by
    setting [validated], and only an entry of its own kind, when the kind is
    not to be validated. *)
Lemma block_effect_lookup cfg k l b l' b' j u :
  block_effect cfg k l b l' b' -> l !! j = Some u ->
  l' !! j = Some u \/
  (l' !! j = Some (set_validated true u) /\ validated u = false /\
   type u = type_name k /\ validation_flag cfg k = false).
Proof.
  intros H Hj. destruct H as [?|t ? ?|i found Hflag Hf Hv|i found ? ? ?]; auto.
  - left. by apply lookup_app_l_Some.
  - apply find_type_Some in Hf as (Hi & Hty & _).
    destruct (decide (i = j)) as [->|Hne].
    + right. assert (found = u) as -> by congruence.
      split_and!; try done. apply list_lookup_insert_eq. by eapply lookup_lt_Some.
    + left. by rewrite list_lookup_insert_ne.
Qed.

Lemma autoValidateEach_cons cfg k ks l b w :
  autoValidateEach cfg (k :: ks) (l, b) w =
    autoValidateEach cfg ks
      ((autoValidate cfg k (l, b) w).1.1, (autoValidate cfg k (l, b) w).1.2)
      (autoValidate cfg k (l, b) w).2.
Proof.
  cbn [autoValidateEach]. unfold bind.
  by destruct (autoValidate cfg k (l, b) w) as [[l1 b1] w1].
Qed.

Lemma each_find_other cfg ks ty l b w :
  Forall (fun k => type_name k <> ty) ks ->
  find_type ty (autoValidateEach cfg ks (l, b) w).1.1 = find_type ty l.
Proof.
  intros Hks. revert l b w. induction Hks as [|k ks Hk _ IH]; intros l b w; [done|].
  rewrite autoValidateEach_cons, IH.
  eapply block_effect_find_other; [apply autoValidate_effect|done].
Qed.

Lemma each_changed cfg ks l w :
  (autoValidateEach cfg ks (l, true) w).1.2 = true.
Proof.
  revert l w. induction ks as [|k ks IH]; intros l w; [done|].
  rewrite autoValidateEach_cons.
  rewrite (block_effect_changed _ _ _ _ _ _ (autoValidate_effect cfg k l true w) eq_refl).
  apply IH.
Qed.

Lemma each_length cfg ks l b w :
  (length l <= length (autoValidateEach cfg ks (l, b) w).1.1)%nat.
Proof.
  revert l b w. induction ks as [|k ks IH]; intros l b w; [done|].
  rewrite autoValidateEach_cons.
  etrans; [|apply IH].
  eapply block_effect_length, autoValidate_effect.
Qed.

Lemma each_lookup cfg ks l b w j u :
  l !! j = Some u ->
  (autoValidateEach cfg ks (l, b) w).1.1 !! j = Some u \/
  ((autoValidateEach cfg ks (l, b) w).1.1 !! j = Some (set_validated true u) /\
   validated u = false /\
   exists k, k ∈ ks /\ type u = type_name k /\ validation_flag cfg k = false).
Proof.
  revert l b w u. induction ks as [|k ks IH]; intros l b w u Hj; [by left|].
  rewrite autoValidateEach_cons.
  destruct (block_effect_lookup _ _ _ _ _ _ j u (autoValidate_effect cfg k l b w) Hj)
    as [H1|(H1 & Hv & Hty & Hflag)].
  - destruct (IH _ (autoValidate cfg k (l, b) w).1.2 (autoValidate cfg k (l, b) w).2 u H1)
      as [H2|(H2 & Hv & k' & Hk' & Hty & Hflag)]; [by left|].
    right. split_and!; try done. exists k'. split_and!; try done. by right.
  - destruct (IH _ (autoValidate cfg k (l, b) w).1.2 (autoValidate cfg k (l, b) w).2 _ H1)
      as [H2|(_ & Hv' & _)]; [|done].
    right. split_and!; try done. exists k. split_and!; try done. by left.
Qed.

(** The block of a kind that is not to be validated, on a collection that
    holds no entry of the kind, between blocks of other kinds. *)
Lemma each_push cfg before k after l b w :
  Forall (fun k' => type_name k' <> type_name k) before ->
  Forall (fun k' => type_name k' <> type_name k) after ->
  validation_flag cfg k = false ->
  find_type (type_name k) l = None ->
  (autoValidateEach cfg (before ++ k :: after) (l, b) w).1.2 = true /\
  exists i t, (length l <= i)%nat /\
    find_type (type_name k) (autoValidateEach cfg (before ++ k :: after) (l, b) w).1.1
      = Some (i, pre_validated (type_name k) t).
Proof.
  intros Hbefore Hafter Hflag Hnone.
  rewrite autoValidateEach_app.
  pose proof (each_find_other cfg before (type_name k) l b w Hbefore) as Hf1.
  pose proof (each_length cfg before l b w) as Hlen1.
  destruct (autoValidateEach cfg before (l, b) w) as [[l1 b1] w1]. cbn [fst snd] in *.
  rewrite Hnone in Hf1.
  rewrite autoValidateEach_cons.
  pose proof (autoValidate_effect cfg k l1 b1 w1) as Hblock.
  destruct (autoValidate cfg k (l1, b1) w1) as [[l2 b2] w2]. cbn [fst snd] in *.
  inversion Hblock as [Hreq|t _ _ Hl2 Hb2|i found _ Hfound|i found _ Hfound];
    subst; try congruence.
  split; [apply each_changed|].
  exists (length l1), t. split; [done|].
  rewrite each_find_other by done.
  apply find_type_app_new; [by apply find_type_None|done].
Qed.

(** The block of a kind that is not to be validated, on a collection whose
    entry of the kind is not confirmed, between blocks of other kinds. *)
Lemma each_flip cfg before k after l b w i v :
  Forall (fun k' => type_name k' <> type_name k) before ->
  Forall (fun k' => type_name k' <> type_name k) after ->
  validation_flag cfg k = false ->
  find_type (type_name k) l = Some (i, v) ->
  validated v = false ->
  (autoValidateEach cfg (before ++ k :: after) (l, b) w).1.2 = true /\
  find_type (type_name k) (autoValidateEach cfg (before ++ k :: after) (l, b) w).1.1
    = Some (i, set_validated true v).
Proof.
  intros Hbefore Hafter Hflag Hfind Hv.
  rewrite autoValidateEach_app.
  pose proof (each_find_other cfg before (type_name k) l b w Hbefore) as Hf1.
  destruct (autoValidateEach cfg before (l, b) w) as [[l1 b1] w1]. cbn [fst snd] in *.
  rewrite Hfind in Hf1.
  rewrite autoValidateEach_cons.
  pose proof (autoValidate_effect cfg k l1 b1 w1) as Hblock.
  destruct (autoValidate cfg k (l1, b1) w1) as [[l2 b2] w2]. cbn [fst snd] in *.
  inversion Hblock as [Hreq|t _ Hnone|j found _ Hfound|j found _ Hfound];
    subst; try congruence.
  assert (j = i /\ found = v) as [-> ->] by (split; congruence).
  split; [apply each_changed|].
  rewrite each_find_other by done.
  by apply (find_type_insert _ _ _ v).
Qed.

(** Every kind sits once in the order of the blocks. *)
Lemma all_types_split k :
  exists before after,
    all_types = before ++ k :: after /\
    Forall (fun k' => type_name k' <> type_name k) before /\
    Forall (fun k' => type_name k' <> type_name k) after.
Proof.
  destruct k.
  - exists [], [phone; identity; address]. split_and!; [done|..]; by repeat constructor.
  - exists [email], [identity; address]. split_and!; [done|..]; by repeat constructor.
  - exists [email; phone], [address]. split_and!; [done|..]; by repeat constructor.
  - exists [email; phone; identity], []. split_and!; [done|..]; by repeat constructor.
Qed.

Lemma pre_save_new cfg this w :
  ENABLED cfg = true -> isNew this = true ->
  (pre_save cfg this w).1 =
    if (autoValidateAll cfg (current this) w).1.2
    then set_validations (autoValidateAll cfg (current this) w).1.1 this
    else this.
Proof.
  intros He Hn. unfold pre_save. rewrite He, Hn. simpl. unfold bind.
  destruct (autoValidateAll cfg (current this) w) as [[l' b'] w']. simpl.
  by destruct b'.
Qed.

Lemma pre_save_disabled cfg this w :
  ENABLED cfg = false -> pre_save cfg this w = (this, w).
Proof. intros He. unfold pre_save. by rewrite He. Qed.

Lemma pre_save_not_new cfg this w :
  isNew this = false -> pre_save cfg this w = (this, w).
Proof. intros Hn. unfold pre_save. rewrite Hn. by destruct (ENABLED cfg). Qed.

(** ** C7: a kind that is not to be validated gets a confirmed entry *)

(** C7, as amended.  When the master switch [ENABLED] is on and the document
    is new, for every kind whose flag is false and every collection without
    an entry of the kind, the pre-save hook appends an entry of the kind with
    [validated = true], [code = ""], no [expire_at], [tries = 0] and
    [resends = 0]; [hasChanges] is true and the collection is written back
    to the document. *)
Theorem pre_save_auto_confirms cfg this k w :
  ENABLED cfg = true ->
  isNew this = true ->
  validation_flag cfg k = false ->
  find_type (type_name k) (current this) = None ->
  (autoValidateAll cfg (current this) w).1.2 = true /\
  exists l' i v,
    validations (pre_save cfg this w).1 = Some l' /\
    find_type (type_name k) l' = Some (i, v) /\
    (length (current this) <= i)%nat /\
    validated v = true /\ code v = "" /\ expire_at v = None /\
    tries v = 0 /\ resends v = 0.
Proof.
  intros He Hn Hflag Hnone.
  destruct (all_types_split k) as (before & after & Hsplit & Hb & Ha).
  rewrite (pre_save_new _ _ _ He Hn), autoValidateAll_each, Hsplit.
  destruct (each_push cfg before k after (current this) false w Hb Ha Hflag Hnone)
    as (Hchanged & i & t & Hi & Hfind).
  rewrite Hchanged. split; [done|].
  eexists _, i, _. split_and!; [done|exact Hfind|done..].
Qed.

(** ** C8: an unconfirmed entry of such a kind is confirmed in place *)

(** C8, as amended.  When [ENABLED] is on and the document is new, for
    every kind whose flag is false and whose (first) entry is not yet
    confirmed, the pre-save hook sets [validated] of that entry and leaves
    its other fields as they were.  Every entry that the collection held
    stays at its index and is unchanged, but for those unconfirmed entries
    whose own kind has a false flag, which are confirmed too; so the entries
    of the kinds that are to be validated are unchanged. *)
Theorem pre_save_confirms_in_place cfg this k i v w :
  ENABLED cfg = true ->
  isNew this = true ->
  validation_flag cfg k = false ->
  find_type (type_name k) (current this) = Some (i, v) ->
  validated v = false ->
  let l' := current (pre_save cfg this w).1 in
  (exists v', find_type (type_name k) l' = Some (i, v') /\
     validated v' = true /\ type v' = type v /\ code v' = code v /\
     expire_at v' = expire_at v /\ tries v' = tries v /\
     resends v' = resends v /\ created v' = created v /\
     last_try v' = last_try v /\ metadata v' = metadata v) /\
  (forall j u, current this !! j = Some u ->
     l' !! j = Some u \/
     (l' !! j = Some (set_validated true u) /\ validated u = false /\
      exists k', type u = type_name k' /\ validation_flag cfg k' = false)) /\
  (forall j u, current this !! j = Some u ->
     (forall k', type u = type_name k' -> validation_flag cfg k' = true) ->
     l' !! j = Some u).
Proof.
  intros He Hn Hflag Hfind Hv l'.
  destruct (all_types_split k) as (before & after & Hsplit & Hb & Ha).
  assert (Hl' : l' = (autoValidateEach cfg all_types (current this, false) w).1.1).
  { subst l'. rewrite (pre_save_new _ _ _ He Hn), autoValidateAll_each, Hsplit.
    destruct (each_flip cfg before k after (current this) false w i v Hb Ha Hflag Hfind Hv)
      as [-> _]. done. }
  assert (Hall : forall j u, current this !! j = Some u ->
     l' !! j = Some u \/
     (l' !! j = Some (set_validated true u) /\ validated u = false /\
      exists k', type u = type_name k' /\ validation_flag cfg k' = false)).
  { intros j u Hj. rewrite Hl'.
    destruct (each_lookup cfg all_types (current this) false w j u Hj)
      as [H|(H & Hu & k' & _ & Hty & Hk')]; [by left|].
    right. split_and!; try done. by exists k'. }
  split_and!.
  - exists (set_validated true v). split_and!; try done.
    rewrite Hl', Hsplit.
    by destruct (each_flip cfg before k after (current this) false w i v Hb Ha Hflag Hfind Hv).
  - exact Hall.
  - intros j u Hj Hreq. destruct (Hall j u Hj) as [H|(_ & _ & k' & Hty & Hk')]; [done|].
    rewrite (Hreq k' Hty) in Hk'. discriminate.
Qed.

(** ** C9: tries never go down *)

Lemma keeps_tries_refl l : keeps_tries l l.
Proof. intros i v Hi. exists v. split_and!; [done..|lia]. Qed.

Lemma keeps_tries_trans l1 l2 l3 :
  keeps_tries l1 l2 -> keeps_tries l2 l3 -> keeps_tries l1 l3.
Proof.
  intros H12 H23 i v Hi.
  destruct (H12 i v Hi) as (v2 & Hi2 & Hty2 & Hle2).
  destruct (H23 i v2 Hi2) as (v3 & Hi3 & Hty3 & Hle3).
  exists v3. split_and!; [done|congruence|lia].
Qed.

Lemma keeps_tries_insert l i v v' :
  l !! i = Some v -> type v' = type v -> tries v <= tries v' ->
  keeps_tries l (<[i:=v']> l).
Proof.
  intros Hi Hty Hle j u Hj. destruct (decide (i = j)) as [->|Hne].
  - assert (u = v) as -> by congruence. exists v'. split_and!; try done.
    apply list_lookup_insert_eq. by eapply lookup_lt_Some.
  - exists u. rewrite list_lookup_insert_ne by done. split_and!; [done..|lia].
Qed.

Lemma validateCode_keeps_tries cfg this ty submitted w :
  keeps_tries (current this) (current (validateCode cfg this ty submitted w).1.2).
Proof.
  unfold validateCode.
  destruct (find_type ty (current this)) as [[i v]|] eqn:Hf;
    [|apply keeps_tries_refl].
  apply find_type_Some in Hf as (Hi & _ & _).
  destruct (validated v); [apply keeps_tries_refl|].
  assert (Hins : forall v', type v' = type v -> tries v' = tries v + 1 ->
            keeps_tries (current this) (<[i:=v']> (current this))).
  { intros v' Hty Htr. apply (keeps_tries_insert _ _ v); [done..|lia]. }
  destruct (expire_at v) as [e|]; run_monad.
  - destruct (e <? _); simpl; [apply keeps_tries_refl|].
    destruct (_ <? _); simpl; [by apply Hins|].
    destruct (String.eqb _ _); simpl; by apply Hins.
  - destruct (_ <? _); simpl; [by apply Hins|].
    destruct (String.eqb _ _); simpl; by apply Hins.
Qed.

Lemma pre_save_keeps_tries cfg this w :
  keeps_tries (current this) (current (pre_save cfg this w).1).
Proof.
  destruct (ENABLED cfg) eqn:He;
    [|rewrite pre_save_disabled by done; apply keeps_tries_refl].
  destruct (isNew this) eqn:Hn;
    [|rewrite pre_save_not_new by done; apply keeps_tries_refl].
  rewrite (pre_save_new _ _ _ He Hn), autoValidateAll_each.
  destruct (autoValidateEach cfg all_types (current this, false) w).1.2 eqn:Hb;
    [|apply keeps_tries_refl].
  intros i v Hi. rewrite current_set_validations.
  destruct (each_lookup cfg all_types (current this) false w i v Hi)
    as [H|(H & _)].
  - exists v. split_and!; [done..|lia].
  - exists (set_validated true v). split_and!; [done..|simpl; lia].
Qed.

Lemma perform_keeps_tries cfg o this w :
  keeps_tries (current this) (current (perform cfg o this w).1).
Proof.
  destruct o as [ty submitted|]; simpl.
  - unfold bind, ret.
    pose proof (validateCode_keeps_tries cfg this ty submitted w) as H.
    by destruct (validateCode cfg this ty submitted w) as [[b d] w'].
  - apply pre_save_keeps_tries.
Qed.

Lemma perform_all_keeps_tries cfg ops this w :
  keeps_tries (current this) (current (perform_all cfg ops this w).1).
Proof.
  revert this w. induction ops as [|o ops IH]; intros this w.
  - apply keeps_tries_refl.
  - cbn [perform_all]. unfold bind.
    pose proof (perform_keeps_tries cfg o this w) as H1.
    destruct (perform cfg o this w) as [this1 w1]. simpl in H1.
    eapply keeps_tries_trans; [exact H1|apply IH].
Qed.

Lemma without_first_elem ty l u : u ∈ without_first ty l -> u ∈ l.
Proof.
  unfold without_first. destruct (find_type ty l) as [[i v]|]; [|done].
  apply list_elem_of_delete_inv.
Qed.

(** C9. Through every sequence of [validateCode] calls and runs of the
    pre-save hook, an entry of the collection stays at its index, keeps its
    kind, and its [tries] never go down.  A counter at 0 comes from
    [createValidationRequest] only: the entry it returns is fresh, with
    [tries = 0], and every other entry of the collection it leaves is an
    entry that was there before, as it was. *)
Theorem tries_never_decrease cfg ops this w i v :
  current this !! i = Some v ->
  (exists v', current (perform_all cfg ops this w).1 !! i = Some v' /\
              type v' = type v /\ tries v <= tries v') /\
  (forall ty options w',
     tries (createValidationRequest this ty options w').1.1 = 0 /\
     forall u, u ∈ current (createValidationRequest this ty options w').1.2 ->
               u = (createValidationRequest this ty options w').1.1 \/
               u ∈ current this).
Proof.
  intros Hi. split.
  - by apply (perform_all_keeps_tries cfg ops this w).
  - intros ty options w'. rewrite createValidationRequest_unfold. simpl.
    split; [apply createValidation_request|].
    intros u [Hu|Hu]%elem_of_app.
    + right. by eapply without_first_elem.
    + left. by apply list_elem_of_singleton in Hu.
Qed.

(** ** The code that is generated *)

Lemma string_length_app (s1 s2 : string) :
  String.length (s1 +:+ s2) = (String.length s1 + String.length s2)%nat.
Proof. induction s1 as [|c s1 IH]; simpl; [done|]. by rewrite IH. Qed.

(** [Math.floor(Math.random() * 10).toString()] is one character. *)
Lemma digit_length (r : Q) :
  (0 <= r)%Q -> (r < 1)%Q ->
  String.length (toString (Math_floor (r * 10))) = 1%nat.
Proof.
  intros H0 H1. unfold Math_floor, toString.
  assert (Hlo : 0 <= Qfloor (r * 10)).
  { change 0 with (Qfloor 0). apply Qfloor_resp_le.
    apply Qmult_le_0_compat; [done|]. by unfold Qle. }
  assert (Hhi : Qfloor (r * 10) < 10).
  { rewrite Zlt_Qlt. eapply Qle_lt_trans; [apply Qfloor_le|].
    unfold Qlt in *. destruct r as [a b]. simpl in *. lia. }
  generalize dependent (Qfloor (r * 10)). intros z Hlo Hhi.
  assert (z = 0 \/ z = 1 \/ z = 2 \/ z = 3 \/ z = 4 \/ z = 5 \/ z = 6 \/
          z = 7 \/ z = 8 \/ z = 9) as Hz by lia.
  repeat destruct Hz as [->|Hz]; try reflexivity. by subst.
Qed.

Lemma generate_loop_length n acc w :
  unit_interval w ->
  String.length (generate_loop n acc w).1 = (String.length acc + n)%nat.
Proof.
  revert acc w. induction n as [|n IH]; intros acc w Hw.
  - simpl. unfold ret. simpl. lia.
  - cbn [generate_loop]. unfold bind, Math_random.
    rewrite IH by exact Hw.
    rewrite string_length_app, digit_length by apply Hw. lia.
Qed.

(** [generateValidationCode(length)] is [length] characters long, and empty
    when [length] is not positive. *)
Lemma generateValidationCode_length len w :
  unit_interval w ->
  String.length (generateValidationCode (Some len) w).1 = Z.to_nat len.
Proof.
  intros Hw. unfold generateValidationCode. simpl.
  by rewrite generate_loop_length.
Qed.

Lemma generateValidationCode_nonpositive len w :
  len <= 0 -> generateValidationCode (Some len) w = ("", w).
Proof.
  intros Hlen. unfold generateValidationCode. simpl.
  replace (Z.to_nat len) with 0%nat by lia. reflexivity.
Qed.

(** [calculateExpiry(0)] is the time the clock shows. *)
Lemma calculateExpiry_zero w :
  (calculateExpiry (Some 0) w).1 = clock w (clock_reads w).
Proof. unfold calculateExpiry. run_monad. lia. Qed.

(** What [createValidation] takes from the options of a request. *)
Lemma createValidation_options ty options w :
  unit_interval w ->
  let v := (createValidation ty options false w).1 in
  String.length (code v) = Z.to_nat (or_default (options ≫= codeLength) 6) /\
  expire_at v = Some (clock w (S (clock_reads w))
                      + or_default (options ≫= expiresIn) 3600 * 1000).
Proof.
  intros Hw v.
  destruct (createValidation_request ty options w)
    as (_ & _ & _ & _ & _ & _ & _ & Hexp & Hcode).
  fold v in Hexp, Hcode. split; [|exact Hexp].
  rewrite Hcode. apply generateValidationCode_length.
  intros k. apply Hw.
Qed.

(** ** C5: the options of a request *)

(** C5, at the input on which the code departs from it.  With
    [expiresIn: 0] the entry does not expire at the time it is created: the
    [||] of [createValidation] takes 0 for an absent value, and the expiry is
    the default 3600 seconds after the clock is read, as it is without
    options.  A value other than 0 is used as given, and [calculateExpiry]
    itself, called with 0, returns the time the clock shows. *)
Theorem createValidation_zero_expiresIn ty len m1 m2 w :
  let v := (createValidation ty (Some (mkOptions (Some 0) len m1 m2)) false w).1 in
  created v = clock w (clock_reads w) /\
  expire_at v = Some (clock w (S (clock_reads w)) + 3600 * 1000) /\
  expire_at v = expire_at (createValidation ty None false w).1 /\
  (calculateExpiry (Some 0) w).1 = clock w (clock_reads w) /\
  forall e, e <> 0 ->
    expire_at (createValidation ty (Some (mkOptions (Some e) len m1 m2)) false w).1
      = Some (clock w (S (clock_reads w)) + e * 1000).
Proof.
  intros v. subst v.
  destruct (createValidation_request ty (Some (mkOptions (Some 0) len m1 m2)) w)
    as (_ & _ & _ & _ & _ & _ & Hcr & Hexp & _).
  destruct (createValidation_request ty None w)
    as (_ & _ & _ & _ & _ & _ & _ & Hexp0 & _).
  split_and!; [done|done|by rewrite Hexp, Hexp0|apply calculateExpiry_zero|].
  intros e He.
  destruct (createValidation_request ty (Some (mkOptions (Some e) len m1 m2)) w)
    as (_ & _ & _ & _ & _ & _ & _ & Hexp' & _).
  rewrite Hexp'. simpl. by destruct (Z.eqb_spec e 0).
Qed.

(** ** C10: lengths that are not positive *)

(** C10, with the input on which the code departs from it.  For every
    [length <= 0], [generateValidationCode] returns the empty string and
    draws nothing; an entry requested with a negative [codeLength] is
    unconfirmed with an empty code.  With [codeLength: 0] the [||] of
    [createValidation] takes 0 for an absent value: the code of the entry has
    the default 6 characters, it is not empty. *)
Theorem createValidation_nonpositive_length ty len e m1 m2 w :
  len <= 0 ->
  unit_interval w ->
  let v := (createValidation ty (Some (mkOptions e (Some len) m1 m2)) false w).1 in
  generateValidationCode (Some len) w = ("", w) /\
  validated v = false /\
  (len < 0 -> code v = "") /\
  (len = 0 -> String.length (code v) = 6%nat).
Proof.
  intros Hlen Hw v. subst v.
  destruct (createValidation_request ty (Some (mkOptions e (Some len) m1 m2)) w)
    as (_ & Hv & _ & _ & _ & _ & _ & _ & Hcode).
  split_and!; [by apply generateValidationCode_nonpositive|done|..].
  - intros Hneg. rewrite Hcode. simpl.
    destruct (Z.eqb_spec len 0); [lia|].
    by rewrite generateValidationCode_nonpositive.
  - intros ->.
    by destruct (createValidation_options ty (Some (mkOptions e (Some 0) m1 m2)) w Hw).
Qed.

(** ** C6: a kind outside the enumeration *)

(** C6, as amended.  For a kind outside the enumeration neither method
    signals an error.  [validateCode] returns false and changes nothing when
    the collection holds no entry of the kind; [createValidationRequest]
    appends and returns an unconfirmed entry whose [type] is the string it
    was given. *)
Theorem unknown_kind_not_rejected cfg this ty :
  (forall k, ty <> type_name k) ->
  (forall submitted w,
     ~ signals_invalid_argument (call_validateCode cfg this ty submitted w)) /\
  (forall options w,
     ~ signals_invalid_argument (call_createValidationRequest this ty options w)) /\
  (forall submitted w,
     find_type ty (current this) = None ->
     call_validateCode cfg this ty submitted w = Returns (false, this, w)) /\
  (forall options w, exists nv this' w',
     call_createValidationRequest this ty options w = Returns (nv, this', w') /\
     type nv = ty /\ validated nv = false /\
     current this' = without_first ty (current this) ++ [nv]).
Proof.
  intros _. split_and!.
  - intros submitted w [error H]. discriminate.
  - intros options w [error H]. discriminate.
  - intros submitted w Hnone. unfold call_validateCode.
    by rewrite validateCode_no_entry.
  - intros options w. unfold call_createValidationRequest.
    rewrite createValidationRequest_unfold. simpl.
    eexists _, _, _. split; [reflexivity|].
    destruct (createValidation_request ty options w) as (Hty & Hv & _).
    by split_and!.
Qed.

(** ** The claims on concrete documents *)

Lemma noon_unit_interval : unit_interval noon.
Proof.
  intros k. unfold noon, Qle, Qlt. cbn [entropy Qnum Qden].
  pose proof (Nat.mod_upper_bound k 10). lia.
Qed.

(** The scenario of the specification: an entry with 5 tries under
    [MAX_TRIES = 5]; the correct code is refused and the tries become 6. *)
Example sixth_try_refused :
  (validateCode defaultConfig (doc_of [locked_out]) "email" "123456" noon).1
  = (false, doc_of [set_last_try 1000001 (set_tries 6 locked_out)]).
Proof. reflexivity. Qed.

Example fifth_try_accepted :
  (validateCode defaultConfig (doc_of [fifth_try]) "email" "123456" noon).1
  = (true, doc_of [set_validated true (set_last_try 1000001 (set_tries 5 fifth_try))]).
Proof. reflexivity. Qed.

Lemma validateCode_attempt_ceiling_witness :
  find_type "email" (current (doc_of [fifth_try])) = Some (0%nat, fifth_try) /\
  live fifth_try noon /\
  (validateCode defaultConfig (doc_of [fifth_try]) "email" "123456" noon).1
  = (true, set_validations
             (<[0%nat:=set_validated true (attempted fifth_try noon)]>
                (current (doc_of [fifth_try])))
             (doc_of [fifth_try])).
Proof.
  assert (Hf : find_type "email" (current (doc_of [fifth_try]))
               = Some (0%nat, fifth_try)) by reflexivity.
  assert (Hl : live fifth_try noon).
  { split; [reflexivity|]. intros e [= <-]. vm_compute. discriminate. }
  split_and!; [exact Hf|exact Hl|].
  apply (validateCode_attempt_ceiling defaultConfig _ _ _ _ "123456" noon Hf Hl).
  - vm_compute. discriminate.
  - reflexivity.
Defined.

Lemma validateCode_confirmed_idempotent_witness :
  isValidated (doc_of [confirmed_email]) "email" = true /\
  validateCode defaultConfig (doc_of [confirmed_email]) "email" "000000" noon
  = (true, doc_of [confirmed_email], noon).
Proof.
  split; [reflexivity|].
  apply (proj1 (validateCode_confirmed_idempotent defaultConfig
                  (doc_of [confirmed_email]) "email")).
  reflexivity.
Defined.

Lemma validateCode_expired_unchanged_witness :
  find_type "email" (current (doc_of [expired_entry])) = Some (0%nat, expired_entry) /\
  (validateCode defaultConfig (doc_of [expired_entry]) "email" "123456" noon).1
  = (false, doc_of [expired_entry]).
Proof.
  split; [reflexivity|].
  apply (validateCode_expired_unchanged defaultConfig (doc_of [expired_entry])
           "email" 0%nat expired_entry 999000 "123456" noon);
    reflexivity.
Defined.

(** C4 fails on a collection that holds the kind twice: only the first of
    the two entries is taken out, so two entries of the kind are left, and
    [isValidated] reads the older one, which is confirmed. *)
Lemma createValidationRequest_keeps_duplicate :
  count_type "email"
    (current (createValidationRequest (doc_of [confirmed_email; confirmed_email])
                "email" None noon).1.2) = 2%nat /\
  isValidated
    (createValidationRequest (doc_of [confirmed_email; confirmed_email])
       "email" None noon).1.2 "email" = true.
Proof. split; reflexivity. Qed.

Lemma createValidationRequest_replaces_witness :
  (count_type "email" (current (doc_of [fifth_try])) <= 1)%nat /\
  count_type "email"
    (current (createValidationRequest (doc_of [fifth_try]) "email" None noon).1.2)
  = 1%nat /\
  tries (createValidationRequest (doc_of [fifth_try]) "email" None noon).1.1 = 0.
Proof.
  assert (H : (count_type "email" (current (doc_of [fifth_try])) <= 1)%nat)
    by (vm_compute; lia).
  split; [exact H|].
  destruct (createValidationRequest_replaces (doc_of [fifth_try]) "email" None noon H)
    as [(_ & _ & _ & Htries & _ & Hcount & _) _].
  by split.
Defined.

(** The failing input of C5: [createValidation('email', { expiresIn: 0 })]
    at a clock that shows 1000000 and then 1000001. *)
Example zero_expiresIn_at_noon :
  created (createValidation "email" (Some (mkOptions (Some 0) None None None)) false noon).1
  = 1000000 /\
  expire_at (createValidation "email" (Some (mkOptions (Some 0) None None None)) false noon).1
  = Some 4600001.
Proof. split; reflexivity. Qed.

(** The scenario of the specification:
    [createValidation('phone', { codeLength: 4, expiresIn: 1800 })]. *)
Example four_digits_half_an_hour :
  code (createValidation "phone" (Some (mkOptions (Some 1800) (Some 4) None None))
          false noon).1 = "0123" /\
  expire_at (createValidation "phone" (Some (mkOptions (Some 1800) (Some 4) None None))
               false noon).1 = Some (1000001 + 1800 * 1000).
Proof. split; reflexivity. Qed.

(** The failing input of C10: [createValidation('email', { codeLength: 0 })]. *)
Example zero_codeLength_at_noon :
  code (createValidation "email" (Some (mkOptions None (Some 0) None None)) false noon).1
  = "012345".
Proof. reflexivity. Qed.

Lemma createValidation_nonpositive_length_witness :
  -2 <= 0 /\ unit_interval noon /\
  code (createValidation "email" (Some (mkOptions None (Some (-2)) None None)) false noon).1
  = "".
Proof.
  assert (H : -2 <= 0) by lia.
  split_and!; [exact H|exact noon_unit_interval|].
  apply (createValidation_nonpositive_length "email" (-2) None None None noon
           H noon_unit_interval).
  lia.
Defined.

(** C6 fails on the kind ["fax"]: both methods return. *)
Lemma unknown_kind_returns :
  call_validateCode defaultConfig (doc_of [alice]) "fax" "123456" noon
  = Returns (false, doc_of [alice], noon) /\
  ~ signals_invalid_argument
      (call_validateCode defaultConfig (doc_of [alice]) "fax" "123456" noon) /\
  ~ signals_invalid_argument
      (call_createValidationRequest (doc_of [alice]) "fax" None noon) /\
  type <$> current (createValidationRequest (doc_of [alice]) "fax" None noon).1.2
  = ["email"; "fax"].
Proof.
  split_and!; [reflexivity| | |reflexivity]; intros [error H]; discriminate.
Qed.

Lemma unknown_kind_not_rejected_witness :
  (forall k, "fax" <> type_name k) /\
  call_validateCode defaultConfig (doc_of [alice]) "fax" "123456" noon
  = Returns (false, doc_of [alice], noon).
Proof.
  assert (H : forall k, "fax" <> type_name k) by (intros []; discriminate).
  split; [exact H|].
  apply (unknown_kind_not_rejected defaultConfig (doc_of [alice]) "fax" H).
  reflexivity.
Defined.

(** C7 fails when the master switch is off: the hook returns at once and
    nothing is appended, although [EMAIL_VALIDATION] is false and the new
    document has no email entry. *)
Lemma pre_save_switched_off :
  ENABLED switched_off = false /\
  validation_flag switched_off email = false /\
  find_type "email" (current (mkDoc true (Some []))) = None /\
  pre_save switched_off (mkDoc true (Some [])) noon = (mkDoc true (Some []), noon) /\
  isValidated (pre_save switched_off (mkDoc true (Some [])) noon).1 "email" = false.
Proof. split_and!; reflexivity. Qed.

Lemma pre_save_auto_confirms_witness :
  ENABLED auto_email = true /\ isNew (mkDoc true None) = true /\
  validation_flag auto_email email = false /\
  find_type "email" (current (mkDoc true None)) = None /\
  (autoValidateAll auto_email (current (mkDoc true None)) noon).1.2 = true.
Proof.
  split_and!; [reflexivity..|].
  apply (pre_save_auto_confirms auto_email (mkDoc true None) email noon);
    reflexivity.
Defined.

(** C8 fails when a second kind is not to be validated either: for the
    kind email, the phone entry is an entry of another kind, and the hook
    confirms it as well. *)
Lemma pre_save_confirms_other_kind :
  validation_flag auto_email_phone email = false /\
  find_type "email" (current (doc_of [alice; pending_phone])) = Some (0%nat, alice) /\
  validated alice = false /\
  current (doc_of [alice; pending_phone]) !! 1%nat = Some pending_phone /\
  current (pre_save auto_email_phone (doc_of [alice; pending_phone]) noon).1 !! 1%nat
  = Some (set_validated true pending_phone) /\
  set_validated true pending_phone <> pending_phone.
Proof. split_and!; [reflexivity..|discriminate]. Qed.

Lemma pre_save_confirms_in_place_witness :
  ENABLED auto_email = true /\ isNew (doc_of [alice; pending_phone]) = true /\
  validation_flag auto_email email = false /\
  find_type "email" (current (doc_of [alice; pending_phone])) = Some (0%nat, alice) /\
  validated alice = false /\
  current (pre_save auto_email (doc_of [alice; pending_phone]) noon).1 !! 1%nat
  = Some pending_phone.
Proof.
  split_and!; [reflexivity..|].
  apply (pre_save_confirms_in_place auto_email (doc_of [alice; pending_phone])
           email 0%nat alice noon); try reflexivity.
  intros [] [=]; reflexivity.
Defined.

Lemma tries_never_decrease_witness :
  current (doc_of [alice]) !! 0%nat = Some alice /\
  exists v',
    current (perform_all defaultConfig
               [SubmitCode "email" "000000"; ApplyCreationPolicy;
                SubmitCode "email" "123456"]
               (doc_of [alice]) noon).1 !! 0%nat = Some v' /\
    type v' = type alice /\ tries alice <= tries v'.
Proof.
  split; [reflexivity|].
  apply (tries_never_decrease defaultConfig
           [SubmitCode "email" "000000"; ApplyCreationPolicy;
            SubmitCode "email" "123456"]
           (doc_of [alice]) noon 0%nat alice).
  reflexivity.
Defined.

(** * Further properties of the code *)

(** ** The generated code is made of digits *)

Lemma all_digits_app s1 s2 :
  all_digits (s1 +:+ s2) = all_digits s1 && all_digits s2.
Proof.
  induction s1 as [|c s1 IH]; simpl; [done|]. rewrite IH. by rewrite andb_assoc.
Qed.

Lemma digit_all_digits (r : Q) :
  (0 <= r)%Q -> (r < 1)%Q ->
  all_digits (toString (Math_floor (r * 10))) = true.
Proof.
  intros H0 H1. unfold Math_floor, toString.
  assert (Hlo : 0 <= Qfloor (r * 10)).
  { change 0 with (Qfloor 0). apply Qfloor_resp_le.
    apply Qmult_le_0_compat; [done|]. by unfold Qle. }
  assert (Hhi : Qfloor (r * 10) < 10).
  { rewrite Zlt_Qlt. eapply Qle_lt_trans; [apply Qfloor_le|].
    unfold Qlt in *. destruct r as [a b]. simpl in *. lia. }
  generalize dependent (Qfloor (r * 10)). intros z Hlo Hhi.
  assert (z = 0 \/ z = 1 \/ z = 2 \/ z = 3 \/ z = 4 \/ z = 5 \/ z = 6 \/
          z = 7 \/ z = 8 \/ z = 9) as Hz by lia.
  repeat destruct Hz as [->|Hz]; try reflexivity. by subst.
Qed.

Lemma generate_loop_digits n acc w :
  unit_interval w -> all_digits acc = true ->
  all_digits (generate_loop n acc w).1 = true.
Proof.
  revert acc w. induction n as [|n IH]; intros acc w Hw Hacc; [done|].
  cbn [generate_loop]. unfold bind, Math_random.
  apply IH; [exact Hw|].
  rewrite all_digits_app, Hacc. simpl. apply digit_all_digits; apply Hw.
Qed.

(** X1. [generateValidationCode(length)] returns a string of exactly
    [length] characters (none when [length <= 0], 6 when no length is
    given), each of them a decimal digit, and draws one random number for
    each character. *)
Theorem generateValidationCode_digits (len : option Z) w :
  unit_interval w ->
  String.length (generateValidationCode len w).1
    = Z.to_nat (default 6%Z len) /\
  all_digits (generateValidationCode len w).1 = true /\
  entropy_draws (generateValidationCode len w).2
    = (Z.to_nat (default 6%Z len) + entropy_draws w)%nat.
Proof.
  intros Hw. unfold generateValidationCode. split_and!.
  - by rewrite generate_loop_length.
  - by apply generate_loop_digits.
  - by rewrite generate_loop_world.
Qed.

Lemma generateValidationCode_digits_witness :
  unit_interval noon /\
  String.length (generateValidationCode (Some 8) noon).1 = 8%nat.
Proof.
  split; [exact noon_unit_interval|].
  apply (generateValidationCode_digits (Some 8) noon noon_unit_interval).
Defined.

(** ** What [validateCode] does to the document *)

Lemma isValidated_current this ty :
  isValidated this ty = from_option validated false (first_of ty (current this)).
Proof.
  unfold isValidated, current, first_of.
  destruct (validations this) as [l|]; simpl; [|done].
  by destruct (find_type ty l) as [[i v]|].
Qed.

(** The document after a call: as it was, or with the entry found
    replaced by the entry after the attempt, confirmed or not. *)
Lemma validateCode_shape cfg this ty submitted w :
  (validateCode cfg this ty submitted w).1.2 = this \/
  exists i v v',
    find_type ty (current this) = Some (i, v) /\ validated v = false /\
    (v' = attempted v w \/ v' = set_validated true (attempted v w)) /\
    (validateCode cfg this ty submitted w).1.2
      = set_validations (<[i:=v']> (current this)) this.
Proof.
  unfold validateCode.
  destruct (find_type ty (current this)) as [[i v]|] eqn:Hf; [|by left].
  destruct (validated v) eqn:Hv; [by left|].
  assert (Hkeep : forall v' (d : Doc),
            v' = attempted v w \/ v' = set_validated true (attempted v w) ->
            d = set_validations (<[i:=v']> (current this)) this ->
            d = this \/
            exists i0 v0 v'0,
              Some (i, v) = Some (i0, v0) /\ validated v0 = false /\
              (v'0 = attempted v0 w \/ v'0 = set_validated true (attempted v0 w)) /\
              d = set_validations (<[i0:=v'0]> (current this)) this).
  { intros v' d Hv' Hd. right. by exists i, v, v'. }
  unfold attempted, attempt_time in *.
  destruct (expire_at v) as [e|]; run_monad.
  - destruct (e <? _); simpl; [by left|].
    destruct (_ <? _); simpl; [eapply Hkeep; [by left|done]|].
    destruct (String.eqb _ _); simpl; (eapply Hkeep; [|done]); [by right|by left].
  - destruct (_ <? _); simpl; [eapply Hkeep; [by left|done]|].
    destruct (String.eqb _ _); simpl; (eapply Hkeep; [|done]); [by right|by left].
Qed.

(** X2. After [validateCode(type, code)], [isValidated(type)] is what the
    call returned: true after a call that returned true, false after a call
    that returned false. *)
Theorem validateCode_result_is_status cfg this ty submitted w :
  isValidated (validateCode cfg this ty submitted w).1.2 ty
  = (validateCode cfg this ty submitted w).1.1.
Proof.
  destruct (validateCode cfg this ty submitted w).1.1 eqn:Hr.
  { by apply validateCode_success_confirms. }
  revert Hr. unfold validateCode.
  destruct (find_type ty (current this)) as [[i v]|] eqn:Hf.
  2:{ intros _. simpl. rewrite isValidated_current. unfold first_of. by rewrite Hf. }
  destruct (validated v) eqn:Hv; [done|].
  assert (Hins : forall v', type v' = type v -> validated v' = false ->
            isValidated (set_validations (<[i:=v']> (current this)) this) ty = false).
  { intros v' Hty Hv'. erewrite isValidated_doc_of_find; [exact Hv'|].
    rewrite current_set_validations. by apply (find_type_insert _ _ _ v). }
  assert (Hsame : isValidated this ty = false).
  { by rewrite (isValidated_doc_of_find _ _ _ _ Hf). }
  destruct (expire_at v) as [e|]; run_monad.
  - destruct (e <? _); simpl; [done|].
    destruct (_ <? _); simpl; [intros _; by apply Hins|].
    destruct (String.eqb _ _); simpl; [done|]. intros _. by apply Hins.
  - destruct (_ <? _); simpl; [intros _; by apply Hins|].
    destruct (String.eqb _ _); simpl; [done|]. intros _. by apply Hins.
Qed.

(** X3. [validateCode] returns true only when the entry of the kind was
    confirmed already, or when it is live, the tries after this one do not
    exceed [MAX_TRIES], and the submitted string is the code of the entry. *)
Theorem validateCode_true_only_if cfg this ty submitted w :
  (validateCode cfg this ty submitted w).1.1 = true ->
  isValidated this ty = true \/
  exists i v, find_type ty (current this) = Some (i, v) /\ live v w /\
              tries v + 1 <= MAX_TRIES cfg /\ code v = submitted.
Proof.
  unfold validateCode.
  destruct (find_type ty (current this)) as [[i v]|] eqn:Hf; [|done].
  destruct (validated v) eqn:Hv.
  { intros _. left. by rewrite (isValidated_doc_of_find _ _ _ _ Hf). }
  intros Hr. right. exists i, v. split; [done|]. revert Hr.
  unfold live. rewrite Hv.
  destruct (expire_at v) as [e|]; run_monad.
  - destruct (Z.ltb_spec e (clock w (clock_reads w))); simpl; [done|].
    destruct (Z.ltb_spec (MAX_TRIES cfg) (tries v + 1)); simpl; [done|].
    destruct (String.eqb_spec (code v) submitted); simpl; [|done].
    intros _. split_and!; try done. intros e' [= <-]. lia.
  - destruct (Z.ltb_spec (MAX_TRIES cfg) (tries v + 1)); simpl; [done|].
    destruct (String.eqb_spec (code v) submitted); simpl; [|done].
    intros _. by split_and!.
Qed.

Lemma validateCode_true_only_if_witness :
  (validateCode defaultConfig (doc_of [fifth_try]) "email" "123456" noon).1.1 = true /\
  (isValidated (doc_of [fifth_try]) "email" = true \/
   exists i v, find_type "email" (current (doc_of [fifth_try])) = Some (i, v) /\
               live v noon /\ tries v + 1 <= MAX_TRIES defaultConfig /\
               code v = "123456").
Proof.
  assert (H : (validateCode defaultConfig (doc_of [fifth_try]) "email" "123456" noon).1.1
              = true) by reflexivity.
  split; [exact H|].
  exact (validateCode_true_only_if defaultConfig (doc_of [fifth_try]) "email"
           "123456" noon H).
Defined.

(** X4. [validateCode(type, ...)] writes nothing but [tries], [last_try]
    and [validated] of the entry it finds: the collection keeps its length,
    every entry stays at its index with its kind, code, resends, creation
    time, expiry and metadata, the entries of other kinds are untouched, and
    [isValidated] of every other kind is what it was. *)
Theorem validateCode_frame cfg this ty submitted w :
  length (current (validateCode cfg this ty submitted w).1.2)
    = length (current this) /\
  isNew (validateCode cfg this ty submitted w).1.2 = isNew this /\
  (forall j u, current this !! j = Some u ->
     exists u', current (validateCode cfg this ty submitted w).1.2 !! j = Some u' /\
       type u' = type u /\ code u' = code u /\ resends u' = resends u /\
       created u' = created u /\ expire_at u' = expire_at u /\
       metadata u' = metadata u /\
       (type u <> ty -> u' = u)) /\
  (forall ty', ty' <> ty ->
     isValidated (validateCode cfg this ty submitted w).1.2 ty'
     = isValidated this ty').
Proof.
  destruct (validateCode_shape cfg this ty submitted w)
    as [->|(i & v & v' & Hf & Hv & Hv' & ->)].
  { split_and!; try done. intros j u Hj. by exists u. }
  apply find_type_Some in Hf as (Hi & Hty & _).
  assert (Hfields : type v' = type v /\ code v' = code v /\ resends v' = resends v /\
                    created v' = created v /\ expire_at v' = expire_at v /\
                    metadata v' = metadata v).
  { by destruct Hv' as [->| ->]. }
  rewrite current_set_validations. split_and!.
  - by rewrite length_insert.
  - done.
  - intros j u Hj. destruct (decide (i = j)) as [->|Hne].
    + assert (u = v) as -> by congruence. exists v'.
      rewrite list_lookup_insert_eq by (by eapply lookup_lt_Some).
      split_and!; try done; apply Hfields.
    + exists u. by rewrite list_lookup_insert_ne.
  - intros ty' Hne. rewrite !isValidated_current, current_set_validations.
    unfold first_of.
    rewrite (find_type_insert_other ty' _ i v v'); [done|done|congruence|].
    destruct Hfields as [-> _]. congruence.
Qed.

(** ** An entry that has used up its tries *)

Lemma validateCode_locked cfg this ty i v submitted w :
  find_type ty (current this) = Some (i, v) ->
  validated v = false ->
  MAX_TRIES cfg <= tries v ->
  (validateCode cfg this ty submitted w).1.1 = false /\
  exists v', find_type ty (current (validateCode cfg this ty submitted w).1.2)
             = Some (i, v') /\
             validated v' = false /\ MAX_TRIES cfg <= tries v'.
Proof.
  intros Hf Hv Hmax. unfold validateCode. rewrite Hf, Hv.
  assert (Hins : forall t,
    find_type ty (current (set_validations
       (<[i:=set_last_try t (set_tries (tries v + 1) v)]> (current this)) this))
    = Some (i, set_last_try t (set_tries (tries v + 1) v))).
  { intros t. rewrite current_set_validations. by apply (find_type_insert _ _ _ v). }
  destruct (expire_at v) as [e|]; run_monad.
  - destruct (e <? _); simpl; [split; [done|]; by exists v|].
    destruct (Z.ltb_spec (MAX_TRIES cfg) (tries v + 1)); [|lia]. simpl.
    split; [done|]. eexists. split; [apply Hins|]. simpl. split; [done|lia].
  - destruct (Z.ltb_spec (MAX_TRIES cfg) (tries v + 1)); [|lia]. simpl.
    split; [done|]. eexists. split; [apply Hins|]. simpl. split; [done|lia].
Qed.

(** X5. An unconfirmed entry whose tries have reached [MAX_TRIES] cannot
    be confirmed by [validateCode] any more: every later submission for the
    kind, with the right code or a wrong one and at any time, returns false,
    and the entry stays unconfirmed. *)
Theorem locked_out_for_good cfg this ty i v codes w :
  find_type ty (current this) = Some (i, v) ->
  validated v = false ->
  MAX_TRIES cfg <= tries v ->
  (submit_each cfg this ty codes w).1.1 = replicate (length codes) false /\
  isValidated (submit_each cfg this ty codes w).1.2 ty = false.
Proof.
  revert this v w. induction codes as [|submitted codes IH]; intros this v w Hf Hv Hmax.
  - simpl. split; [done|]. by rewrite (isValidated_doc_of_find _ _ _ _ Hf).
  - cbn [submit_each]. unfold bind.
    destruct (validateCode_locked cfg this ty i v submitted w Hf Hv Hmax)
      as (Hr & v' & Hf' & Hv' & Hmax').
    destruct (validateCode cfg this ty submitted w) as [[b this1] w1].
    cbn [fst snd] in *. subst b.
    specialize (IH this1 v' w1 Hf' Hv' Hmax').
    destruct (submit_each cfg this1 ty codes w1) as [[bs this2] w2].
    simpl in *. destruct IH as [-> IH]. by split.
Qed.

Lemma locked_out_for_good_witness :
  find_type "email" (current (doc_of [locked_out])) = Some (0%nat, locked_out) /\
  (submit_each defaultConfig (doc_of [locked_out]) "email"
     ["111111"; "123456"; "123456"] noon).1.1 = [false; false; false].
Proof.
  assert (Hf : find_type "email" (current (doc_of [locked_out]))
               = Some (0%nat, locked_out)) by reflexivity.
  split; [exact Hf|].
  apply (locked_out_for_good defaultConfig (doc_of [locked_out]) "email" 0%nat
           locked_out ["111111"; "123456"; "123456"] noon Hf).
  - reflexivity.
  - vm_compute. discriminate.
Defined.

(** ** What [createValidationRequest] does to the other kinds *)

Lemma first_of_filter ty l :
  first_of ty l = head (filter (fun v => type v = ty) l).
Proof.
  unfold first_of, find_type. induction l as [|x l IH]; [done|].
  simpl. destruct (decide (type x = ty)) as [Hx|Hx].
  - by rewrite filter_cons_True.
  - rewrite filter_cons_False by done. rewrite <- IH.
    by destruct (list_find _ l) as [[i v]|].
Qed.

Lemma filter_without_first_other ty ty' l :
  ty' <> ty ->
  filter (fun v => type v = ty') (without_first ty l)
  = filter (fun v => type v = ty') l.
Proof.
  intros Hne. unfold without_first.
  destruct (find_type ty l) as [[i v]|] eqn:Hf; [|done].
  apply find_type_Some in Hf as (Hi & Hv & _).
  pose proof (take_drop_middle l i v Hi) as Hl. rewrite delete_take_drop.
  set (before := take i l) in *. set (after := drop (S i) l) in *.
  clearbody before after. subst l.
  rewrite !filter_app. by rewrite filter_cons_False by congruence.
Qed.

(** X6. [createValidationRequest(type)] leaves the other kinds alone, on
    every collection: the entries of each other kind are the same entries in
    the same order, and [isValidated] of each other kind is what it was.  Of
    the kind requested it takes one entry out at most and adds one: the
    collection then holds as many entries of the kind as before, and one if
    it held none. *)
Theorem createValidationRequest_frame this ty options w :
  (forall ty', ty' <> ty ->
     filter (fun v => type v = ty')
       (current (createValidationRequest this ty options w).1.2)
     = filter (fun v => type v = ty') (current this) /\
     isValidated (createValidationRequest this ty options w).1.2 ty'
     = isValidated this ty') /\
  count_type ty (current (createValidationRequest this ty options w).1.2)
  = Nat.max 1 (count_type ty (current this)) /\
  isNew (createValidationRequest this ty options w).1.2 = isNew this.
Proof.
  rewrite createValidationRequest_unfold. cbn [fst snd].
  rewrite current_set_validations.
  destruct (createValidation_request ty options w) as (Hty & _).
  set (nv := (createValidation ty options false w).1) in *.
  assert (Hfilter : forall ty', ty' <> ty ->
     filter (fun v => type v = ty') (without_first ty (current this) ++ [nv])
     = filter (fun v => type v = ty') (current this)).
  { intros ty' Hne. rewrite filter_app, filter_without_first_other by done.
    rewrite filter_cons_False by congruence. by rewrite app_nil_r. }
  split_and!.
  - intros ty' Hne. split; [by apply Hfilter|].
    rewrite !isValidated_current, current_set_validations, !first_of_filter.
    by rewrite Hfilter.
  - rewrite count_type_app, count_type_cons, decide_True by done.
    destruct (without_first_spec ty (current this)) as [-> _].
    unfold count_type at 2. simpl. lia.
  - done.
Qed.

(** ** A request and the submission that follows it *)

Lemma createValidation_world ty options w :
  (createValidation ty options false w).2
  = mkWorld (clock w) (S (S (clock_reads w))) (entropy w)
      (Z.to_nat (or_default (options ≫= codeLength) 6) + entropy_draws w).
Proof.
  unfold createValidation, calculateExpiry, generateValidationCode. run_monad.
  pose proof (generate_loop_world
    (Z.to_nat (or_default (options ≫= codeLength) 6)) ""
    (mkWorld (clock w) (S (clock_reads w)) (entropy w) (entropy_draws w))) as Hw.
  destruct (generate_loop _ _ _) as [c w1]. simpl in *. by subst w1.
Qed.

(** The entry requested is the entry that the next call finds, and the
    clock has been read twice. *)
Lemma createValidationRequest_found this ty options w :
  (count_type ty (current this) <= 1)%nat ->
  exists i,
    find_type ty (current (createValidationRequest this ty options w).1.2)
    = Some (i, (createValidationRequest this ty options w).1.1) /\
    clock (createValidationRequest this ty options w).2
          (clock_reads (createValidationRequest this ty options w).2)
    = clock w (S (S (clock_reads w))).
Proof.
  intros Hcount.
  destruct (createValidationRequest_once this ty options w Hcount)
    as (Hcur & Hty & _).
  exists (length (filter (fun v => type v <> ty) (current this))). split.
  - rewrite Hcur. apply find_type_app_new; [apply count_type_filter_others|done].
  - rewrite createValidationRequest_unfold. cbn [fst snd].
    by rewrite createValidation_world.
Qed.

(** The first submission after a request, when the clock is not past the
    expiry: the verdict is the comparison of the codes. *)
Lemma first_submission cfg this ty options submitted w :
  (count_type ty (current this) <= 1)%nat ->
  1 <= MAX_TRIES cfg ->
  clock w (S (S (clock_reads w)))
    <= clock w (S (clock_reads w)) + or_default (options ≫= expiresIn) 3600 * 1000 ->
  (validateCode cfg (createValidationRequest this ty options w).1.2 ty submitted
     (createValidationRequest this ty options w).2).1.1
  = String.eqb (code (createValidationRequest this ty options w).1.1) submitted.
Proof.
  intros Hcount Hmax Hclock.
  destruct (createValidationRequest_found this ty options w Hcount) as (i & Hf & Hw).
  assert (Hnv : (createValidationRequest this ty options w).1.1
                = (createValidation ty options false w).1).
  { by rewrite createValidationRequest_unfold. }
  destruct (createValidation_request ty options w)
    as (_ & Hv & Htries & _ & _ & _ & _ & Hexp & _).
  rewrite <- Hnv in Hv, Htries, Hexp.
  set (r := createValidationRequest this ty options w) in *.
  assert (Hlive : live r.1.1 r.2).
  { split; [done|]. intros e He. rewrite Hw. rewrite Hexp in He.
    injection He as <-. lia. }
  rewrite (validateCode_live cfg r.1.2 ty i r.1.1 submitted r.2 Hf Hlive).
  rewrite Htries. destruct (Z.ltb_spec (MAX_TRIES cfg) (0 + 1)); [lia|].
  by destruct (String.eqb (code r.1.1) submitted).
Qed.

(** X7. A request followed at once by a submission, on a collection that
    holds the kind at most once, with [MAX_TRIES >= 1] and a clock that is
    not past the expiry when the submission arrives: the code that
    [createValidationRequest] returned is accepted and [isValidated] is true
    afterwards; any other string is refused. *)
Theorem issued_code_is_accepted cfg this ty options w :
  (count_type ty (current this) <= 1)%nat ->
  1 <= MAX_TRIES cfg ->
  clock w (S (S (clock_reads w)))
    <= clock w (S (clock_reads w)) + or_default (options ≫= expiresIn) 3600 * 1000 ->
  let r := createValidationRequest this ty options w in
  (validateCode cfg r.1.2 ty (code r.1.1) r.2).1.1 = true /\
  isValidated (validateCode cfg r.1.2 ty (code r.1.1) r.2).1.2 ty = true /\
  forall submitted, submitted <> code r.1.1 ->
    (validateCode cfg r.1.2 ty submitted r.2).1.1 = false.
Proof.
  intros Hcount Hmax Hclock r. subst r.
  assert (Hok : (validateCode cfg (createValidationRequest this ty options w).1.2 ty
                   (code (createValidationRequest this ty options w).1.1)
                   (createValidationRequest this ty options w).2).1.1 = true).
  { rewrite first_submission by done. apply String.eqb_refl. }
  split_and!; [done|by apply validateCode_success_confirms|].
  intros submitted Hne. rewrite first_submission by done.
  by apply String.eqb_neq.
Qed.

Lemma issued_code_is_accepted_witness :
  (count_type "phone" (current (doc_of [alice])) <= 1)%nat /\
  1 <= MAX_TRIES defaultConfig /\
  (validateCode defaultConfig
     (createValidationRequest (doc_of [alice]) "phone" None noon).1.2 "phone"
     (code (createValidationRequest (doc_of [alice]) "phone" None noon).1.1)
     (createValidationRequest (doc_of [alice]) "phone" None noon).2).1.1 = true.
Proof.
  assert (H1 : (count_type "phone" (current (doc_of [alice])) <= 1)%nat)
    by (vm_compute; lia).
  assert (H2 : 1 <= MAX_TRIES defaultConfig) by (vm_compute; discriminate).
  split_and!; [exact H1|exact H2|].
  apply (issued_code_is_accepted defaultConfig (doc_of [alice]) "phone" None noon H1 H2).
  vm_compute. discriminate.
Defined.



(** X9. A request with a negative [codeLength] issues the empty string as
    its code: on a collection that holds the kind at most once, with
    [MAX_TRIES >= 1] and a clock that is not past the expiry, submitting the
    empty string confirms the kind. *)
Theorem negative_codeLength_empty_code cfg this ty options n w :
  (count_type ty (current this) <= 1)%nat ->
  1 <= MAX_TRIES cfg ->
  clock w (S (S (clock_reads w)))
    <= clock w (S (clock_reads w)) + or_default (options ≫= expiresIn) 3600 * 1000 ->
  options ≫= codeLength = Some n ->
  n < 0 ->
  let r := createValidationRequest this ty options w in
  code r.1.1 = "" /\
  (validateCode cfg r.1.2 ty "" r.2).1.1 = true /\
  isValidated (validateCode cfg r.1.2 ty "" r.2).1.2 ty = true.
Proof.
  intros Hcount Hmax Hclock Hn Hneg r. subst r.
  assert (Hcode : code (createValidationRequest this ty options w).1.1 = "").
  { rewrite createValidationRequest_unfold. cbn [fst snd].
    destruct (createValidation_request ty options w)
      as (_ & _ & _ & _ & _ & _ & _ & _ & ->).
    rewrite Hn. simpl. destruct (Z.eqb_spec n 0); [lia|].
    by rewrite generateValidationCode_nonpositive by lia. }
  assert (Hok : (validateCode cfg (createValidationRequest this ty options w).1.2 ty
                   "" (createValidationRequest this ty options w).2).1.1 = true).
  { rewrite first_submission by done. by rewrite Hcode. }
  split_and!; [done|done|by apply validateCode_success_confirms].
Qed.

Lemma negative_codeLength_empty_code_witness :
  (count_type "email" (current (doc_of [])) <= 1)%nat /\
  code (createValidationRequest (doc_of []) "email"
          (Some (mkOptions None (Some (-1)) None None)) noon).1.1 = "".
Proof.
  assert (H1 : (count_type "email" (current (doc_of [])) <= 1)%nat)
    by (vm_compute; lia).
  split; [exact H1|].
  apply (negative_codeLength_empty_code defaultConfig (doc_of []) "email"
           (Some (mkOptions None (Some (-1)) None None)) (-1) noon H1).
  - vm_compute. discriminate.
  - vm_compute. discriminate.
  - reflexivity.
  - lia.
Defined.

(** ** The pre-save hook as a whole *)

(** The blocks leave the entry of a kind that is to be validated where it
    is and as it is. *)
Lemma each_keeps_required cfg ks k l b w :
  validation_flag cfg k = true ->
  find_type (type_name k) (autoValidateEach cfg ks (l, b) w).1.1
  = find_type (type_name k) l.
Proof.
  intros Hflag. revert l b w. induction ks as [|k' ks IH]; intros l b w; [done|].
  rewrite autoValidateEach_cons, IH.
  pose proof (autoValidate_effect cfg k' l b w) as Hblock.
  destruct (decide (type_name k' = type_name k)) as [Heq|Hne].
  - apply type_name_inj in Heq as ->.
    inversion Hblock; congruence.
  - by eapply block_effect_find_other.
Qed.

(** The blocks leave a confirmed entry where it is and as it is. *)
Lemma each_keeps_confirmed cfg ks ty l b w i v :
  find_type ty l = Some (i, v) -> validated v = true ->
  find_type ty (autoValidateEach cfg ks (l, b) w).1.1 = Some (i, v).
Proof.
  revert l b w. induction ks as [|k' ks IH]; intros l b w Hf Hv; [done|].
  rewrite autoValidateEach_cons. apply IH; [|done].
  pose proof (autoValidate_effect cfg k' l b w) as Hblock.
  destruct (decide (type_name k' = ty)) as [Heq|Hne].
  - subst ty. inversion Hblock as [?|t ? Hnone|j found ? Hfound Hv'|?]; try congruence.
  - rewrite <- Hf. by eapply block_effect_find_other.
Qed.

(** After the blocks, the kind of a block whose flag is false has a
    confirmed entry. *)
Lemma each_settles cfg before k after l b w :
  Forall (fun k' => type_name k' <> type_name k) before ->
  Forall (fun k' => type_name k' <> type_name k) after ->
  validation_flag cfg k = false ->
  exists i v,
    find_type (type_name k) (autoValidateEach cfg (before ++ k :: after) (l, b) w).1.1
    = Some (i, v) /\ validated v = true.
Proof.
  intros Hb Ha Hflag.
  destruct (find_type (type_name k) l) as [[i v]|] eqn:Hf.
  - destruct (validated v) eqn:Hv.
    + exists i, v. split; [|done]. by apply each_keeps_confirmed.
    + exists i, (set_validated true v). split; [|done].
      by apply (each_flip cfg before k after l b w i v).
  - destruct (each_push cfg before k after l b w Hb Ha Hflag Hf)
      as (_ & i & t & _ & Hfind).
    by exists i, (pre_validated (type_name k) t).
Qed.

(** When [hasChanges] is false at the end, nothing was written. *)
Lemma each_unchanged cfg ks l b w :
  (autoValidateEach cfg ks (l, b) w).1.2 = false ->
  (autoValidateEach cfg ks (l, b) w).1.1 = l.
Proof.
  revert l b w. induction ks as [|k ks IH]; intros l b w; [done|].
  rewrite autoValidateEach_cons.
  pose proof (autoValidate_effect cfg k l b w) as Hblock.
  set (l1 := (autoValidate cfg k (l, b) w).1.1) in *.
  set (b1 := (autoValidate cfg k (l, b) w).1.2) in *.
  clearbody l1 b1. destruct Hblock.
  - apply IH.
  - by rewrite each_changed.
  - by rewrite each_changed.
  - apply IH.
Qed.

(** On a collection in which every kind that is not to be validated has a
    confirmed entry, the blocks do nothing. *)
Lemma each_noop cfg ks l b w :
  (forall k, validation_flag cfg k = false ->
     exists i v, find_type (type_name k) l = Some (i, v) /\ validated v = true) ->
  autoValidateEach cfg ks (l, b) w = ((l, b), w).
Proof.
  intros Hsettled. induction ks as [|k ks IH]; [done|].
  cbn [autoValidateEach]. unfold bind, autoValidate.
  destruct (validation_flag cfg k) eqn:Hflag; simpl; [exact IH|].
  destruct (Hsettled k Hflag) as (i & v & -> & ->). simpl. exact IH.
Qed.

Lemma pre_save_current cfg this w :
  ENABLED cfg = true -> isNew this = true ->
  current (pre_save cfg this w).1
  = (autoValidateEach cfg all_types (current this, false) w).1.1.
Proof.
  intros He Hn. rewrite (pre_save_new _ _ _ He Hn), autoValidateAll_each.
  destruct (autoValidateEach cfg all_types (current this, false) w).1.2 eqn:Hb.
  - done.
  - by rewrite each_unchanged.
Qed.

Lemma pre_save_isNew cfg this w : isNew (pre_save cfg this w).1 = isNew this.
Proof.
  unfold pre_save. destruct (ENABLED cfg); simpl; [|done].
  destruct (isNew this) eqn:Hn; simpl; [|done]. unfold bind.
  destruct (autoValidateAll cfg (current this) w) as [[l' b'] w']. simpl.
  by destruct b'.
Qed.

Lemma pre_save_settled cfg this w :
  (forall k, validation_flag cfg k = false ->
     isValidated this (type_name k) = true) ->
  pre_save cfg this w = (this, w).
Proof.
  intros Hsettled. unfold pre_save.
  destruct (ENABLED cfg); simpl; [|done].
  destruct (isNew this); simpl; [|done].
  unfold bind. rewrite autoValidateAll_each, each_noop; [done|].
  intros k Hflag. specialize (Hsettled k Hflag).
  rewrite isValidated_current in Hsettled. unfold first_of in Hsettled.
  destruct (find_type (type_name k) (current this)) as [[i v]|]; [|done].
  by exists i, v.
Qed.

(** X10. What the pre-save hook does to the status of each kind:
    [isValidated] is true afterwards when it was true before, or when the
    hook is enabled, the document is new and the flag of the kind is false;
    otherwise it is false as before. *)
Theorem pre_save_status cfg this k w :
  isValidated (pre_save cfg this w).1 (type_name k)
  = isValidated this (type_name k)
    || (ENABLED cfg && isNew this && negb (validation_flag cfg k)).
Proof.
  destruct (ENABLED cfg) eqn:He;
    [|rewrite pre_save_disabled by done; by rewrite orb_false_r].
  destruct (isNew this) eqn:Hn;
    [|rewrite pre_save_not_new by done; by rewrite orb_false_r].
  rewrite !isValidated_current, (pre_save_current _ _ _ He Hn). unfold first_of.
  destruct (validation_flag cfg k) eqn:Hflag; cbn [negb andb].
  - rewrite each_keeps_required by done. by rewrite orb_false_r.
  - destruct (all_types_split k) as (before & after & -> & Hb & Ha).
    destruct (each_settles cfg before k after (current this) false w Hb Ha Hflag)
      as (i & v & -> & Hv). cbn [fmap option_fmap option_map snd from_option].
    by rewrite Hv, orb_true_r.
Qed.

(** X11. The pre-save hook is idempotent: run again on the document it
    returned, at any later time, it returns that document unchanged and reads
    no clock. *)
Theorem pre_save_idempotent cfg this w w' :
  pre_save cfg (pre_save cfg this w).1 w' = ((pre_save cfg this w).1, w').
Proof.
  destruct (ENABLED cfg) eqn:He;
    [|rewrite !pre_save_disabled by done; done].
  destruct (isNew this) eqn:Hn;
    [|rewrite (pre_save_not_new cfg this w) by done; by rewrite pre_save_not_new].
  apply pre_save_settled. intros k Hflag.
  rewrite isValidated_current, (pre_save_current _ _ _ He Hn). unfold first_of.
  destruct (all_types_split k) as (before & after & -> & Hb & Ha).
  by destruct (each_settles cfg before k after (current this) false w Hb Ha Hflag)
    as (i & v & -> & Hv).
Qed.

(** X12. The pre-save hook returns the document as it is, and reads no
    clock, when the plugin is not enabled, when the document is not new, and
    when every kind with a false flag is confirmed already; so it does with
    the default configuration, whose flags are all true. *)
Theorem pre_save_leaves_alone cfg this w :
  ENABLED cfg = false \/ isNew this = false \/
  (forall k, validation_flag cfg k = false ->
     isValidated this (type_name k) = true) ->
  pre_save cfg this w = (this, w).
Proof.
  intros [He|[Hn|Hsettled]].
  - by apply pre_save_disabled.
  - by apply pre_save_not_new.
  - by apply pre_save_settled.
Qed.

Lemma pre_save_leaves_alone_witness :
  pre_save defaultConfig (doc_of [alice; pending_phone]) noon
  = (doc_of [alice; pending_phone], noon).
Proof.
  apply (pre_save_leaves_alone defaultConfig (doc_of [alice; pending_phone]) noon).
  right. right. intros []; discriminate.
Defined.

(** ** At most one entry of a kind *)

Lemma count_type_insert ty l i v v' :
  l !! i = Some v -> type v' = type v ->
  count_type ty (<[i:=v']> l) = count_type ty l.
Proof.
  intros Hi Hty. rewrite insert_take_drop by (by eapply lookup_lt_Some).
  rewrite <- (take_drop_middle l i v Hi) at 3.
  rewrite !count_type_app, !count_type_cons. by rewrite Hty.
Qed.

Lemma validateCode_count cfg this ty submitted w ty' :
  count_type ty' (current (validateCode cfg this ty submitted w).1.2)
  = count_type ty' (current this).
Proof.
  destruct (validateCode_shape cfg this ty submitted w)
    as [->|(i & v & v' & Hf & _ & Hv' & ->)]; [done|].
  apply find_type_Some in Hf as (Hi & _ & _).
  rewrite current_set_validations. apply (count_type_insert _ _ _ v); [done|].
  by destruct Hv' as [->| ->].
Qed.

Lemma createValidationRequest_unique this ty options w :
  unique_kinds (current this) ->
  unique_kinds (current (createValidationRequest this ty options w).1.2).
Proof.
  intros Hu ty'. destruct (decide (ty' = ty)) as [->|Hne].
  - destruct (createValidationRequest_once this ty options w (Hu ty))
      as (_ & _ & _ & _ & _ & -> & _). done.
  - rewrite createValidationRequest_unfold. cbn [fst snd].
    rewrite current_set_validations.
    destruct (createValidation_request ty options w) as (Hty & _).
    unfold count_type. rewrite filter_app, filter_without_first_other by done.
    rewrite filter_cons_False by congruence. rewrite app_nil_r. apply Hu.
Qed.

Lemma block_effect_unique cfg k l b l' b' :
  block_effect cfg k l b l' b' -> unique_kinds l -> unique_kinds l'.
Proof.
  intros Hblock Hu ty. destruct Hblock as [?|t ? Hnone|i found ? Hf ?|?]; try apply Hu.
  - rewrite count_type_app, count_type_cons. simpl.
    destruct (decide (type_name k = ty)) as [<-|Hne].
    + apply find_type_None in Hnone. rewrite Hnone.
      unfold count_type. simpl. lia.
    + specialize (Hu ty). unfold count_type at 2. simpl. lia.
  - apply find_type_Some in Hf as (Hi & _ & _).
    rewrite (count_type_insert _ _ _ found) by done. apply Hu.
Qed.

Lemma each_unique cfg ks l b w :
  unique_kinds l -> unique_kinds (autoValidateEach cfg ks (l, b) w).1.1.
Proof.
  revert l b w. induction ks as [|k ks IH]; intros l b w Hu; [done|].
  rewrite autoValidateEach_cons. apply IH.
  eapply block_effect_unique; [apply autoValidate_effect|done].
Qed.

Lemma pre_save_unique cfg this w :
  unique_kinds (current this) -> unique_kinds (current (pre_save cfg this w).1).
Proof.
  intros Hu.
  destruct (ENABLED cfg) eqn:He; [|by rewrite pre_save_disabled].
  destruct (isNew this) eqn:Hn; [|by rewrite pre_save_not_new].
  rewrite (pre_save_current _ _ _ He Hn). by apply each_unique.
Qed.

Lemma run_call_unique cfg c this w :
  unique_kinds (current this) -> unique_kinds (current (run_call cfg c this w).1).
Proof.
  intros Hu. destruct c as [ty options|ty submitted|]; simpl.
  - unfold bind, ret.
    pose proof (createValidationRequest_unique this ty options w Hu) as H.
    by destruct (createValidationRequest this ty options w) as [[nv d] w'].
  - unfold bind, ret. intros ty'.
    pose proof (validateCode_count cfg this ty submitted w ty') as H.
    destruct (validateCode cfg this ty submitted w) as [[r d] w'].
    simpl in *. rewrite H. apply Hu.
  - by apply pre_save_unique.
Qed.

(** X13. The three things that write the collection keep the invariant of
    the data: when the collection holds every kind at most once, it still
    does after any sequence of [createValidationRequest], [validateCode] and
    pre-save calls; so a document that starts without entries never holds
    two entries of a kind. *)
Theorem unique_kinds_kept cfg cs this w :
  unique_kinds (current this) ->
  unique_kinds (current (run_calls cfg cs this w).1).
Proof.
  revert this w. induction cs as [|c cs IH]; intros this w Hu; [done|].
  cbn [run_calls]. unfold bind.
  pose proof (run_call_unique cfg c this w Hu) as H1.
  destruct (run_call cfg c this w) as [this1 w1]. by apply IH.
Qed.

Lemma unique_kinds_kept_witness :
  unique_kinds (current (mkDoc true None)) /\
  unique_kinds
    (current (run_calls auto_email_phone
                [CallSave; CallCreateValidationRequest "email" None;
                 CallValidateCode "email" "012345";
                 CallCreateValidationRequest "identity" None]
                (mkDoc true None) noon).1).
Proof.
  assert (H : unique_kinds (current (mkDoc true None))).
  { intros ty. apply Nat.le_0_l. }
  split; [exact H|].
  apply (unique_kinds_kept auto_email_phone _ (mkDoc true None) noon H).
Defined.

(** ** A kind without an entry, an entry past its expiry *)

(** X14. For a kind of which the collection holds no entry (so also when
    the document has no [validations] at all), [isValidated] is false and
    [validateCode] returns false for every string, without touching the
    document or reading the clock. *)
Theorem no_entry_no_effect cfg this ty submitted w :
  count_type ty (current this) = 0%nat ->
  isValidated this ty = false /\
  validateCode cfg this ty submitted w = (false, this, w).
Proof.
  intros Hnone. apply find_type_None in Hnone. split.
  - rewrite isValidated_current. unfold first_of. by rewrite Hnone.
  - by apply validateCode_no_entry.
Qed.

Lemma no_entry_no_effect_witness :
  count_type "phone" (current (mkDoc false None)) = 0%nat /\
  validateCode defaultConfig (mkDoc false None) "phone" "1234" noon
  = (false, mkDoc false None, noon).
Proof.
  split; [reflexivity|].
  apply (no_entry_no_effect defaultConfig (mkDoc false None) "phone" "1234" noon).
  reflexivity.
Defined.

Lemma validateCode_expired_world cfg this ty i v e submitted w :
  find_type ty (current this) = Some (i, v) ->
  validated v = false ->
  expire_at v = Some e ->
  e < clock w (clock_reads w) ->
  validateCode cfg this ty submitted w
  = (false, this,
     mkWorld (clock w) (S (clock_reads w)) (entropy w) (entropy_draws w)).
Proof.
  intros Hf Hv He Hlt. unfold validateCode. rewrite Hf, Hv, He. run_monad.
  apply Z.ltb_lt in Hlt. by rewrite Hlt.
Qed.

(** X15. An unconfirmed entry that is past its expiry stays refused: when
    the clock never runs backwards, every later submission for the kind, the
    right code included, returns false, and the document is never written. *)
Theorem expired_for_good cfg this ty i v e codes w :
  find_type ty (current this) = Some (i, v) ->
  validated v = false ->
  expire_at v = Some e ->
  e < clock w (clock_reads w) ->
  clock_never_back w ->
  (submit_each cfg this ty codes w).1 = (replicate (length codes) false, this).
Proof.
  intros Hf Hv He. revert w. induction codes as [|submitted codes IH];
    intros w Hlt Hclock; [done|].
  cbn [submit_each]. unfold bind.
  rewrite (validateCode_expired_world _ _ _ _ _ _ _ _ Hf Hv He Hlt).
  cbn [fst snd].
  set (w1 := mkWorld (clock w) (S (clock_reads w)) (entropy w) (entropy_draws w)).
  assert (Hlt1 : e < clock w1 (clock_reads w1)).
  { simpl. pose proof (Hclock (clock_reads w)). lia. }
  specialize (IH w1 Hlt1 Hclock).
  destruct (submit_each cfg this ty codes w1) as [[bs d] w2].
  simpl in *. by injection IH as -> ->.
Qed.

Lemma noon_clock_never_back : clock_never_back noon.
Proof. intros k. unfold noon. cbn [clock]. lia. Qed.

Lemma expired_for_good_witness :
  find_type "email" (current (doc_of [expired_entry])) = Some (0%nat, expired_entry) /\
  clock_never_back noon /\
  (submit_each defaultConfig (doc_of [expired_entry]) "email"
     ["123456"; "123456"] noon).1 = ([false; false], doc_of [expired_entry]).
Proof.
  assert (Hf : find_type "email" (current (doc_of [expired_entry]))
               = Some (0%nat, expired_entry)) by reflexivity.
  split_and!; [exact Hf|exact noon_clock_never_back|].
  apply (expired_for_good defaultConfig (doc_of [expired_entry]) "email" 0%nat
           expired_entry 999000 ["123456"; "123456"] noon Hf);
    [reflexivity|reflexivity|reflexivity|exact noon_clock_never_back].
Defined.

(** ** What the pre-save hook leaves in place *)

Lemma each_length_bound cfg ks l b w :
  (length (autoValidateEach cfg ks (l, b) w).1.1 <= length l + length ks)%nat.
Proof.
  revert l b w. induction ks as [|k ks IH]; intros l b w; [simpl; lia|].
  rewrite autoValidateEach_cons. etrans; [apply IH|].
  pose proof (autoValidate_effect cfg k l b w) as Hblock.
  set (l1 := (autoValidate cfg k (l, b) w).1.1) in *.
  set (b1 := (autoValidate cfg k (l, b) w).1.2) in *.
  clearbody l1 b1. destruct Hblock; simpl; try lia.
  - rewrite length_app. simpl. lia.
  - rewrite length_insert. lia.
Qed.

(** An entry beyond the entries that were there is an entry that a block
    appended. *)
Lemma each_appended cfg ks l b w j u :
  (autoValidateEach cfg ks (l, b) w).1.1 !! j = Some u ->
  (length l <= j)%nat ->
  exists k t, u = pre_validated (type_name k) t /\ validation_flag cfg k = false.
Proof.
  revert l b w. induction ks as [|k ks IH]; intros l b w Hj Hlen.
  { simpl in Hj. apply lookup_lt_Some in Hj. lia. }
  rewrite autoValidateEach_cons in Hj.
  pose proof (autoValidate_effect cfg k l b w) as Hblock.
  set (l1 := (autoValidate cfg k (l, b) w).1.1) in *.
  set (b1 := (autoValidate cfg k (l, b) w).1.2) in *.
  set (w1 := (autoValidate cfg k (l, b) w).2) in *.
  clearbody l1 b1 w1.
  destruct (decide (length l1 <= j)%nat) as [Hge|Hlt]; [by eapply IH|].
  destruct (lookup_lt_is_Some_2 l1 j) as [u1 Hu1]; [lia|].
  assert (Hpushed : exists t, u1 = pre_validated (type_name k) t /\
                              validation_flag cfg k = false).
  { destruct Hblock as [?|t Hflag ?|i found ? ? ?|?]; try lia.
    - exists t. split; [|done].
      rewrite lookup_app_r in Hu1 by done.
      destruct (j - length l)%nat; simpl in Hu1; [congruence|done].
    - rewrite length_insert in Hlt. lia. }
  destruct Hpushed as (t & -> & Hflag).
  destruct (each_lookup cfg ks l1 b1 w1 j _ Hu1) as [H|(_ & Hv & _)]; [|done].
  exists k, t. split; [congruence|done].
Qed.

(** X16. The pre-save hook removes and moves nothing.  Every entry that
    the collection held stays at its index, unchanged or, when it was not
    confirmed and its kind has a false flag, with [validated] set and nothing
    else changed; every entry beyond those is an entry that the hook
    appended, confirmed, with an empty code, no expiry and no tries, of a
    kind with a false flag; at most four entries are appended. *)
Theorem pre_save_frame cfg this w :
  (forall j u, current this !! j = Some u ->
     current (pre_save cfg this w).1 !! j = Some u \/
     (current (pre_save cfg this w).1 !! j = Some (set_validated true u) /\
      validated u = false /\
      exists k, type u = type_name k /\ validation_flag cfg k = false)) /\
  (forall j u, current (pre_save cfg this w).1 !! j = Some u ->
     (length (current this) <= j)%nat ->
     exists k t, u = pre_validated (type_name k) t /\
                 validation_flag cfg k = false) /\
  (length (current this) <= length (current (pre_save cfg this w).1)
   <= length (current this) + 4)%nat.
Proof.
  destruct (ENABLED cfg) eqn:He.
  2:{ rewrite pre_save_disabled by done. simpl. split_and!; [by left| |lia..].
      intros j u Hj Hlen. apply lookup_lt_Some in Hj. lia. }
  destruct (isNew this) eqn:Hn.
  2:{ rewrite pre_save_not_new by done. simpl. split_and!; [by left| |lia..].
      intros j u Hj Hlen. apply lookup_lt_Some in Hj. lia. }
  rewrite (pre_save_current _ _ _ He Hn). split_and!.
  - intros j u Hj.
    destruct (each_lookup cfg all_types (current this) false w j u Hj)
      as [H|(H & Hv & k & _ & Hty & Hflag)]; [by left|].
    right. split_and!; try done. by exists k.
  - intros j u Hj Hlen. by eapply each_appended.
  - apply each_length.
  - apply (each_length_bound cfg all_types).
Qed.
